(** * pull_outputs: downloading the outputs of a Cromwell workflow

    A shallow embedding of [scripts/pull_outputs.py] and the properties of
    its three functions: [download_from_gcs] (the fetcher), [download] with
    [download_outputs] (the tree walk) and [read_json] (the loader).

    Conventions of the embedding.
    - A Python [str] is a Rocq [string] holding its UTF-8 bytes.  The script
      only tests the ASCII prefix [gs://] and splits on [/] and [.], which
      act on the encoding as they act on the text.
    - [pathlib.Path] is the pair of a root and the list of parts that
      [PurePosixPath] keeps after parsing.
    - The file system is a finite map from paths to nodes.  It is keyed by
      parsed paths: [..], symbolic links and the relation between relative
      and absolute names are outside the model.
    - A run takes a file system and gives back how it ended, the file
      system it left and the trace of what it did; a Python exception stops
      the run and keeps what was done before it.
    - A log line is recorded when the script asks for it: whether the
      handler prints it ([LOGLEVEL]) is outside the model.
    - [gsutil] and [json.load] are parameters.  The copy command is taken
      to start; what it then does to the file system is left open. *)

From Stdlib Require Import String Ascii ZArith DecimalString.
From stdpp Require Import base option list strings gmap fin_maps.

Local Open Scope string_scope.
Local Open Scope list_scope.

(* ===================================================================== *)
(** ** Python strings *)
(* ===================================================================== *)

Module PyStr.

(** [s.startswith(p)]. *)
Definition startswith (p s : string) : bool := String.prefix p s.

(** [s.split(sep)] for a separator of one character: never empty. *)
Fixpoint split (sep : ascii) (s : string) : list string :=
  match s with
  | EmptyString => [EmptyString]
  | String c r =>
      if Ascii.eqb c sep then EmptyString :: split sep r
      else match split sep r with
           | h :: t => String c h :: t
           | [] => [String c EmptyString]
           end
  end.

(** [sep.join(l)]. *)
Fixpoint join (sep : string) (l : list string) : string :=
  match l with
  | [] => EmptyString
  | [x] => x
  | x :: r => x +:+ sep +:+ join sep r
  end.

(** [l[-1]] on a list that [split] returned. *)
Definition last_item (l : list string) : string := List.last l EmptyString.

(** [x or ''] for an optional string: [None] and the empty string are
    both falsy. *)
Definition or_empty (x : option string) : string :=
  match x with
  | Some s => s
  | None => EmptyString
  end.

(** Truth value of an optional string, as [if subdir] tests it. *)
Definition truthy (x : option string) : bool :=
  match x with
  | Some (String _ _) => true
  | _ => false
  end.

(** [str(n)] for an [int]. *)
Definition of_int (n : Z) : string := NilZero.string_of_int (Z.to_int n).

(** [str(b)] for a [bool]. *)
Definition of_bool (b : bool) : string := if b then "True" else "False".

End PyStr.

(* ===================================================================== *)
(** ** pathlib *)
(* ===================================================================== *)

(** The root of a POSIX path: none, [/], or exactly two slashes. *)
Inductive Root := Rel | Abs | Abs2.

Record Path := MkPath { root : Root; parts : list string }.

#[global] Instance Root_eq_dec : EqDecision Root.
Proof. solve_decision. Defined.

#[global] Instance Path_eq_dec : EqDecision Path.
Proof. solve_decision. Defined.

#[global] Instance Root_countable : Countable Root.
Proof.
  refine (inj_countable'
            (fun r => match r with Rel => 0 | Abs => 1 | Abs2 => 2 end)
            (fun n => match n with 0 => Rel | 1 => Abs | _ => Abs2 end) _).
  intros []; reflexivity.
Defined.

#[global] Instance Path_countable : Countable Path.
Proof.
  refine (inj_countable' (fun p => (root p, parts p))
                         (fun rp => MkPath (fst rp) (snd rp)) _).
  intros []; reflexivity.
Defined.

Module Pathlib.

Definition slash : ascii := "/"%char.

(** [posixpath.splitroot]: two leading slashes are kept, three or more
    collapse to one. *)
Definition splitroot (s : string) : Root :=
  if PyStr.startswith "/" s then
    if PyStr.startswith "//" s && negb (PyStr.startswith "///" s)
    then Abs2 else Abs
  else Rel.

(** A component that parsing keeps: not empty and not [.]. *)
Definition kept (x : string) : bool :=
  negb (String.eqb x EmptyString) && negb (String.eqb x ".").

(** [Path(s)]. *)
Definition of_str (s : string) : Path :=
  {| root := splitroot s; parts := List.filter kept (PyStr.split slash s) |}.

Definition root_str (r : Root) : string :=
  match r with
  | Rel => EmptyString
  | Abs => "/"
  | Abs2 => "//"
  end.

(** [str(p)]: the path without parts and without root prints as [.]. *)
Definition to_str (p : Path) : string :=
  match root p, parts p with
  | Rel, [] => "."
  | r, l => root_str r +:+ PyStr.join "/" l
  end.

(** [p.name]. *)
Definition name (p : Path) : string := List.last (parts p) EmptyString.

(** [p.parent]: a path without parts is its own parent. *)
Definition parent (p : Path) : Path :=
  {| root := root p; parts := List.removelast (parts p) |}.

End Pathlib.

(** A string in which the character [sep] does not occur. *)
Fixpoint lacks (sep : ascii) (s : string) : bool :=
  match s with
  | EmptyString => true
  | String c r => negb (Ascii.eqb c sep) && lacks sep r
  end.

(** A part as parsing leaves it: kept, and without a slash. *)
Definition is_part (x : string) : bool :=
  Pathlib.kept x && lacks Pathlib.slash x.

(** A path whose parts are all such parts, as [Path(s)] builds them. *)
Definition canonical (p : Path) : Prop :=
  Forall (fun x => is_part x = true) (parts p).

(** What [download_from_gcs] receives as [dest]: a [str] from [read_json],
    a [Path] from [download]. *)
Inductive PathLike :=
| PStr (s : string)
| PPath (p : Path).

(** [Path(dest)]. *)
Definition as_path (d : PathLike) : Path :=
  match d with
  | PStr s => Pathlib.of_str s
  | PPath p => p
  end.

(** [f"{dest}"], and the argument a subprocess receives for [dest]. *)
Definition fspath (d : PathLike) : string :=
  match d with
  | PStr s => s
  | PPath p => Pathlib.to_str p
  end.

(* ===================================================================== *)
(** ** JSON values, as [json.load] builds them *)
(* ===================================================================== *)

(** A mapping keeps its items in insertion order, which is the order the
    script visits them in.  The script never computes with a number: a
    [float] is carried by the text Python prints for it. *)
#[warnings="-register-all"]
Inductive json :=
| JNull
| JBool (b : bool)
| JInt (n : Z)
| JFloat (repr : string)
| JStr (s : string)
| JList (l : list json)
| JDict (kvs : list (string * json)).

(** [f"{type(value)}"] *)
Definition py_type (v : json) : string :=
  match v with
  | JNull => "<class 'NoneType'>"
  | JBool _ => "<class 'bool'>"
  | JInt _ => "<class 'int'>"
  | JFloat _ => "<class 'float'>"
  | JStr _ => "<class 'str'>"
  | JList _ => "<class 'list'>"
  | JDict _ => "<class 'dict'>"
  end.

(** [f"{value}"] for the scalars; containers never reach the formatting. *)
Definition py_str (v : json) : string :=
  match v with
  | JNull => "None"
  | JBool b => PyStr.of_bool b
  | JInt n => PyStr.of_int n
  | JFloat r => r
  | JStr s => s
  | JList _ => "[...]"
  | JDict _ => "{...}"
  end.

(** [d[k]] on a mapping: the item of the first (and only) matching key. *)
Fixpoint dict_get (k : string) (kvs : list (string * json)) : option json :=
  match kvs with
  | [] => None
  | (k', v) :: r => if String.eqb k k' then Some v else dict_get k r
  end.

(** A leaf of a type the walk does not know: a number or a boolean. *)
Definition unrecognized (v : json) : bool :=
  match v with
  | JBool _ | JInt _ | JFloat _ => true
  | _ => false
  end.

(** A tree without string leaves and without unrecognized scalars: lists
    and mappings over null leaves. *)
Fixpoint quiet (v : json) : bool :=
  match v with
  | JNull => true
  | JList l => forallb quiet l
  | JDict kvs => forallb (fun kv => quiet (snd kv)) kvs
  | _ => false
  end.

(** A tree without a string leaf that starts with [gs://]. *)
Fixpoint no_gcs (v : json) : bool :=
  match v with
  | JStr s => negb (PyStr.startswith "gs://" s)
  | JList l => forallb no_gcs l
  | JDict kvs => forallb (fun kv => no_gcs (snd kv)) kvs
  | _ => true
  end.

Fixpoint null_leaves (v : json) : nat :=
  match v with
  | JNull => 1
  | JList l => list_sum (List.map null_leaves l)
  | JDict kvs => list_sum (List.map (fun kv => null_leaves (snd kv)) kvs)
  | _ => 0
  end.

(** Induction over [json] that reaches inside lists and mappings. *)
Section JsonInd.
Variable P : json -> Prop.
Hypothesis Hnull : P JNull.
Hypothesis Hbool : forall b, P (JBool b).
Hypothesis Hint : forall n, P (JInt n).
Hypothesis Hfloat : forall r, P (JFloat r).
Hypothesis Hstr : forall s, P (JStr s).
Hypothesis Hlist : forall l, Forall P l -> P (JList l).
Hypothesis Hdict : forall kvs, Forall (fun kv => P (snd kv)) kvs -> P (JDict kvs).

Fixpoint json_rect' (v : json) : P v :=
  match v with
  | JNull => Hnull
  | JBool b => Hbool b
  | JInt n => Hint n
  | JFloat r => Hfloat r
  | JStr s => Hstr s
  | JList l =>
      Hlist l ((fix go (l : list json) : Forall P l :=
                  match l with
                  | [] => Forall_nil_2 P
                  | x :: r => Forall_cons_2 P x r (json_rect' x) (go r)
                  end) l)
  | JDict kvs =>
      Hdict kvs ((fix go (l : list (string * json)) : Forall (fun kv => P (snd kv)) l :=
                    match l with
                    | [] => Forall_nil_2 _
                    | kv :: r => Forall_cons_2 _ kv r (json_rect' (snd kv)) (go r)
                    end) kvs)
  end.
End JsonInd.

(* ===================================================================== *)
(** ** The file system and the trace of a run *)
(* ===================================================================== *)

Inductive Node :=
| Dir
| File (content : string).

#[global] Instance Node_eq_dec : EqDecision Node.
Proof. solve_decision. Defined.

Abbreviation FS := (gmap Path Node).

Inductive Level := DEBUG | INFO | WARNING | ERROR.

#[global] Instance Level_eq_dec : EqDecision Level.
Proof. solve_decision. Defined.

(** What a run does, in order.  [Fetch] marks the entry of
    [download_from_gcs]; the others are the calls the script makes into the
    logging module, [os] and [subprocess]. *)
Inductive Event :=
| Fetch (src : string) (dest : PathLike)
| Makedirs (p : Path)
| Log (lvl : Level) (msg : string)
| Subprocess (argv : list PathLike).

(** The exceptions that can leave the script. *)
Inductive exn :=
| FileExistsError
| NotADirectoryError
| FileNotFoundError
| IsADirectoryError
| JSONDecodeError
| KeyError
| TypeError
| AttributeError.

Module OS.

(** [Path(p).is_file()] *)
Definition is_file (p : Path) (fs : FS) : bool :=
  match fs !! p with
  | Some (File _) => true
  | _ => false
  end.

(** The non-empty initial segments of a list, shortest first. *)
Fixpoint inits {A} (l : list A) : list (list A) :=
  match l with
  | [] => []
  | x :: r => [x] :: List.map (cons x) (inits r)
  end.

(** A path's ancestors below its root and the path itself, top down. *)
Definition chain (p : Path) : list Path :=
  List.map (MkPath (root p)) (inits (parts p)).

Definition mkdir_all (l : list Path) (fs : FS) : FS :=
  List.fold_right (fun q m => <[q := Dir]> m) fs l.

(** [os.makedirs(p, exist_ok=True)]: every missing directory of the chain
    is created; a regular file on the chain is an error, [FileExistsError]
    when it is [p] itself and [NotADirectoryError] above it. *)
Definition makedirs (p : Path) (fs : FS) : exn + FS :=
  match List.find (fun q => is_file q fs) (chain p) with
  | Some q => inl (if decide (q = p) then FileExistsError else NotADirectoryError)
  | None => inr (mkdir_all (chain p) fs)
  end.

(** [open(name).read()] *)
Definition read (name : string) (fs : FS) : exn + string :=
  match name with
  | EmptyString => inl FileNotFoundError
  | _ =>
      let p := Pathlib.of_str name in
      match fs !! p with
      | Some (File c) => inr c
      | Some Dir => inl IsADirectoryError
      | None =>
          inl (match parts p with
               | [] => IsADirectoryError
               | _ => FileNotFoundError
               end)
      end
  end.

End OS.

(** The result of running a piece of the script from a file system: how it
    ended, the file system it left, and what it did. *)
Record Run (A : Type) := MkRun {
  outcome : exn + A;
  state : FS;
  events : list Event
}.
Arguments MkRun {A}.
Arguments outcome {A}.
Arguments state {A}.
Arguments events {A}.

(** Projections of a trace. *)
Definition fetches (es : list Event) : list (string * PathLike) :=
  List.flat_map (fun e => match e with Fetch s d => [(s, d)] | _ => [] end) es.

Definition copies (es : list Event) : list (list PathLike) :=
  List.flat_map (fun e => match e with Subprocess argv => [argv] | _ => [] end) es.

Definition logs (es : list Event) : list (Level * string) :=
  List.flat_map (fun e => match e with Log l m => [(l, m)] | _ => [] end) es.

Definition mkdirs (es : list Event) : list Path :=
  List.flat_map (fun e => match e with Makedirs p => [p] | _ => [] end) es.

(** The destination of a copy command: its last argument. *)
Definition copy_dest (argv : list PathLike) : Path :=
  as_path (List.last argv (PStr EmptyString)).

Definition M (A : Type) : Type := FS -> Run A.

Definition ret {A} (a : A) : M A := fun fs => MkRun (inr a) fs [].

Definition raise {A} (e : exn) : M A := fun fs => MkRun (inl e) fs [].

Definition bind {A B} (m : M A) (k : A -> M B) : M B :=
  fun fs =>
    let r := m fs in
    match outcome r with
    | inl e => MkRun (inl e) (state r) (events r)
    | inr a =>
        let r' := k a (state r) in
        MkRun (outcome r') (state r') (events r ++ events r')
    end.

Notation "x <- m ;; k" := (bind m (fun x => k))
  (at level 100, m at next level, right associativity).
Notation "m ;; k" := (bind m (fun _ => k))
  (at level 100, right associativity).

Definition emit (e : Event) : M unit := fun fs => MkRun (inr tt) fs [e].

(** [for x in l: f(x)] *)
Definition for_each {A} (f : A -> M unit) : list A -> M unit :=
  fix go (l : list A) : M unit :=
    match l with
    | [] => ret tt
    | x :: r => f x ;; go r
    end.

(** ** Calls into the standard library *)

Definition logging (lvl : Level) (msg : string) : M unit := emit (Log lvl msg).

Definition os_makedirs (p : Path) : M unit :=
  emit (Makedirs p) ;;
  fun fs =>
    match OS.makedirs p fs with
    | inl e => MkRun (inl e) fs []
    | inr fs' => MkRun (inr tt) fs' []
    end.

Definition path_is_file (p : Path) : M bool :=
  fun fs => MkRun (inr (OS.is_file p fs)) fs [].

Definition open_read (name : string) : M string :=
  fun fs => MkRun (OS.read name fs) fs [].

(* ===================================================================== *)
(** ** The script *)
(* ===================================================================== *)

(** [['gsutil', '-q', 'cp', '-n', src, dest]] *)
Definition gsutil_cp_n (src : string) (dest : PathLike) : list PathLike :=
  [PStr "gsutil"; PStr "-q"; PStr "cp"; PStr "-n"; PStr src; dest].

(** The text of the log lines. *)
Definition downloading_msg (src : string) (dest : PathLike) : string :=
  "Downloading " +:+ src +:+ " to " +:+ fspath dest.

Definition exists_msg (src : string) (dest : PathLike) : string :=
  "File already exists, skipping download " +:+ src +:+ " to " +:+ fspath dest.

Definition not_gcs_msg (value : string) : string :=
  "Likely not a File output. had a non-GCS path value of " +:+ value.

Definition skipping_msg (subdir : option string) : string :=
  "Skipping optional output that wasn't defined"
  +:+ (if PyStr.truthy subdir then ": " +:+ PyStr.or_empty subdir
       else EmptyString).

Definition unknown_type_msg (value : json) : string :=
  "Don't know how to download type " +:+ py_type value
  +:+ ". Full object: " +:+ py_str value.

Section Script.

(** [subprocess.call(argv)]: the script discards the exit status, so a
    call is what it does to the file system.  Nothing is assumed of it.
    The arguments are the objects the script passes: strings, and the
    destination as it received it. *)
Variable subprocess_call : list PathLike -> FS -> FS.

(** [json.load] on the text of a file; [None] is a decoding error. *)
Variable json_loads : string -> option json.

(** [os.environ] *)
Variable environ : gmap string string.

Definition subprocess (argv : list PathLike) : M unit :=
  emit (Subprocess argv) ;;
  fun fs => MkRun (inr tt) (subprocess_call argv fs) [].

Definition json_load (text : string) : M json :=
  match json_loads text with
  | Some v => ret v
  | None => raise JSONDecodeError
  end.

(** [os.environ.get(k, default)] *)
Definition environ_get (k default : string) : string :=
  match environ !! k with
  | Some v => v
  | None => default
  end.

Section Mode.

(** The module-level flag, set once from [--dryrun] before any call. *)
Variable DRYRUN : bool.

Definition download_from_gcs (src : string) (dest : PathLike) : M unit :=
  emit (Fetch src dest) ;;
  os_makedirs (Pathlib.parent (as_path dest)) ;;
  present <- path_is_file (as_path dest) ;;
  if negb present then
    logging INFO (downloading_msg src dest) ;;
    if negb DRYRUN then
      subprocess (gsutil_cp_n src dest)
    else ret tt
  else
    logging INFO (exists_msg src dest).

Fixpoint download (path : string) (value : json) (subdir : option string)
  {struct value} : M unit :=
  match value with
  | JList l =>
      for_each
        (fun loc =>
           download (Pathlib.to_str (Pathlib.of_str path) +:+ "/"
                     +:+ PyStr.or_empty subdir) loc None)
        l
  | JDict kvs =>
      for_each
        (fun kv =>
           download (path +:+ "/" +:+ PyStr.or_empty subdir)
                    (snd kv) (Some (fst kv)))
        kvs
  | JStr s =>
      if negb (PyStr.startswith "gs://" s) then
        logging WARNING (not_gcs_msg s)
      else
        download_from_gcs s
          (PPath (Pathlib.of_str
                    (path +:+ "/" +:+ Pathlib.name (Pathlib.of_str s))))
  | JNull =>
      logging INFO (skipping_msg subdir)
  | _ =>
      logging ERROR (unknown_type_msg value)
  end.

(** [response['outputs'].items()]: subscripting anything but a mapping
    is a [TypeError], a missing key a [KeyError], and only a mapping has
    [items]. *)
Definition outputs_items (response : json) : M (list (string * json)) :=
  match response with
  | JDict kvs =>
      match dict_get "outputs" kvs with
      | Some (JDict outs) => ret outs
      | Some _ => raise AttributeError
      | None => raise KeyError
      end
  | _ => raise TypeError
  end.

Definition download_outputs (response : json) (outputs_dir : string) : M unit :=
  items <- outputs_items response ;;
  for_each
    (fun kv =>
       let output_name := PyStr.last_item (PyStr.split "."%char (fst kv)) in
       download outputs_dir (snd kv) (Some output_name))
    items.

Definition read_json (filename : string) : M json :=
  logging DEBUG ("Reading JSON " +:+ filename) ;;
  if PyStr.startswith "gs://" filename then
    let tmpdir := environ_get "TMPDIR" "/tmp" in
    let tmpfile := Pathlib.to_str (Pathlib.of_str tmpdir) +:+ "/"
                   +:+ Pathlib.name (Pathlib.of_str filename) in
    download_from_gcs filename (PStr tmpfile) ;;
    text <- open_read tmpfile ;;
    json_load text
  else
    text <- open_read filename ;;
    json_load text.

(** The last statement of the script, under the flag that [--dryrun] set. *)
Definition main (outputs_file outputs_dir : string) : M unit :=
  response <- read_json outputs_file ;;
  download_outputs response outputs_dir.

End Mode.

End Script.

Arguments download_from_gcs : simpl never.

(* ===================================================================== *)
(** ** Functions of the tree alone, used to state the properties *)
(* ===================================================================== *)

(** The calls [download] makes to the fetcher when nothing stops it: one
    per string leaf that starts with [gs://], in the order of the walk. *)
Fixpoint leaf_fetches (path : string) (value : json) (subdir : option string)
  {struct value} : list (string * PathLike) :=
  match value with
  | JList l =>
      List.flat_map
        (fun loc =>
           leaf_fetches (Pathlib.to_str (Pathlib.of_str path) +:+ "/"
                         +:+ PyStr.or_empty subdir) loc None)
        l
  | JDict kvs =>
      List.flat_map
        (fun kv =>
           leaf_fetches (path +:+ "/" +:+ PyStr.or_empty subdir)
                        (snd kv) (Some (fst kv)))
        kvs
  | JStr s =>
      if PyStr.startswith "gs://" s then
        [(s, PPath (Pathlib.of_str
                      (path +:+ "/" +:+ Pathlib.name (Pathlib.of_str s))))]
      else []
  | _ => []
  end.

(** What the fetcher does when the destination is already a regular file. *)
Definition skipped_fetch (src : string) (dest : PathLike) : list Event :=
  [Fetch src dest; Makedirs (Pathlib.parent (as_path dest));
   Log INFO (exists_msg src dest)].

(** The trace of a walk in which every fetch finds its file in place. *)
Fixpoint skipped_trace (path : string) (value : json) (subdir : option string)
  {struct value} : list Event :=
  match value with
  | JList l =>
      List.flat_map
        (fun loc =>
           skipped_trace (Pathlib.to_str (Pathlib.of_str path) +:+ "/"
                          +:+ PyStr.or_empty subdir) loc None)
        l
  | JDict kvs =>
      List.flat_map
        (fun kv =>
           skipped_trace (path +:+ "/" +:+ PyStr.or_empty subdir)
                         (snd kv) (Some (fst kv)))
        kvs
  | JStr s =>
      if PyStr.startswith "gs://" s then
        skipped_fetch s (PPath (Pathlib.of_str
                                  (path +:+ "/" +:+ Pathlib.name (Pathlib.of_str s))))
      else [Log WARNING (not_gcs_msg s)]
  | JNull => [Log INFO (skipping_msg subdir)]
  | _ => [Log ERROR (unknown_type_msg value)]
  end.

Definition raised {A} (r : Run A) : Prop := exists e, outcome r = inl e.

(** A second run [second] replays the trace [T] after a first run [first]:
    it starts no copy, it does what [T] says for as long as it runs and all
    of it when it returns, and it raises if the first run did. *)
Definition replays (first second : Run unit) (T : list Event) : Prop :=
  copies (events second) = []
  /\ events second `prefix_of` T
  /\ (outcome second = inr tt -> events second = T)
  /\ (raised first -> raised second).

(** [OS.makedirs p] has nothing to do: the whole chain of [p] is there. *)
Definition dir_exists (p : Path) (fs : FS) : bool :=
  forallb (fun q => bool_decide (fs !! q = Some Dir)) (OS.chain p).

(* ===================================================================== *)
(** ** Stand-ins for the outside world, for the examples *)
(* ===================================================================== *)

(** A [gsutil] over a bucket [store]: the copy writes the object to the
    destination unless a regular file is there ([-n]); a missing object
    leaves the file system as it is. *)
Definition gsutil_cp (store : string -> option string)
  (argv : list PathLike) (fs : FS) : FS :=
  match argv with
  | [_; _; _; _; PStr src; dest] =>
      match store src with
      | Some c =>
          if OS.is_file (as_path dest) fs then fs
          else <[as_path dest := File c]> fs
      | None => fs
      end
  | _ => fs
  end.

(** A bucket that holds every object. *)
Definition every_object (src : string) : option string :=
  Some ("object " +:+ src).

(** A bucket that holds one manifest whose text is [true]. *)
Definition one_manifest (src : string) : option string :=
  if String.eqb src "gs://bucket/manifest.json" then Some "true" else None.

(** A network that is down. *)
Definition offline (argv : list PathLike) (fs : FS) : FS := fs.

(** A parser for the three JSON literals. *)
Definition literal_loads (text : string) : option json :=
  if String.eqb text "null" then Some JNull
  else if String.eqb text "true" then Some (JBool true)
  else if String.eqb text "false" then Some (JBool false)
  else None.

Definition no_env : gmap string string := ∅.

(** A temp directory that holds an old manifest, and a working directory
    that holds a copy of the remote one. *)
Definition tmp_with_stale_manifest : FS :=
  <[Pathlib.of_str "/tmp/manifest.json" := File "null"]>
    (<[Pathlib.of_str "/tmp" := Dir]> ∅).

Definition cwd_with_copy : FS :=
  <[Pathlib.of_str "copy.json" := File "true"]> ∅.

(** An output directory that holds an older download, and a regular file
    that stands where the output directory should be. *)
Definition out_with_old_bam : FS :=
  <[Pathlib.of_str "out/bam/a.bam" := File "old"]>
    (<[Pathlib.of_str "out/bam" := Dir]> (<[Pathlib.of_str "out" := Dir]> ∅)).

Definition out_is_a_file : FS := <[Pathlib.of_str "out" := File "notes"]> ∅.

(** An environment that sets [TMPDIR]. *)
Definition scratch_env : gmap string string := {["TMPDIR" := "/var/scratch/"]}.

(** The two documents of the specification's examples. *)
Definition bam_response : json :=
  JDict [("outputs",
          JDict [("wf.task.bam",
                  JDict [("sample1", JStr "gs://bucket/a.bam");
                         ("sample2", JStr "gs://bucket/b.bam")])])].

Definition fastqs_response : json :=
  JDict [("outputs",
          JDict [("wf.task.fastqs",
                  JList [JStr "gs://bucket/r1.fq"; JStr "gs://bucket/r2.fq"])])].

(* ===================================================================== *)
(** * Properties *)
(* ===================================================================== *)

Example of_str_normalises :
  Pathlib.to_str (Pathlib.of_str "./out//bam/./a.bam") = "out/bam/a.bam".
Proof. reflexivity. Qed.

Example name_of_uri : Pathlib.name (Pathlib.of_str "gs://bucket/a.bam") = "a.bam".
Proof. reflexivity. Qed.

Example int_text : PyStr.of_int (-42) = "-42" /\ PyStr.of_int 0 = "0".
Proof. split; reflexivity. Qed.

(** ** The state-and-exception monad *)

Lemma bind_run {A B} (m : M A) (k : A -> M B) fs :
  bind m k fs =
    match outcome (m fs) with
    | inl e => MkRun (inl e) (state (m fs)) (events (m fs))
    | inr a =>
        MkRun (outcome (k a (state (m fs)))) (state (k a (state (m fs))))
              (events (m fs) ++ events (k a (state (m fs))))
    end.
Proof. reflexivity. Qed.

Lemma for_each_nil {A} (f : A -> M unit) fs :
  for_each f [] fs = MkRun (inr tt) fs [].
Proof. reflexivity. Qed.

Lemma for_each_cons {A} (f : A -> M unit) x r fs :
  for_each f (x :: r) fs = (f x ;; for_each f r) fs.
Proof. reflexivity. Qed.

Lemma run_eta {A} (r : Run A) : MkRun (outcome r) (state r) (events r) = r.
Proof. destruct r; reflexivity. Qed.

Lemma for_each_app {A} (f : A -> M unit) l1 l2 fs :
  for_each f (l1 ++ l2) fs = (for_each f l1 ;; for_each f l2) fs.
Proof.
  revert fs; induction l1 as [|x l1 IH]; intros fs.
  - rewrite bind_run; simpl. symmetry; apply run_eta.
  - rewrite <- app_comm_cons, for_each_cons, !bind_run.
    destruct (outcome (f x fs)) as [e|[]] eqn:Hx.
    + rewrite for_each_cons, bind_run, Hx. reflexivity.
    + rewrite IH, bind_run, for_each_cons, bind_run, Hx. simpl.
      destruct (outcome (for_each f l1 (state (f x fs)))) as [e|[]]; simpl.
      * reflexivity.
      * rewrite app_assoc. reflexivity.
Qed.

Lemma startswith_app (a b : string) : String.prefix a (a +:+ b) = true.
Proof.
  induction a as [|c a IH]; simpl.
  - destruct b; reflexivity.
  - rewrite IH. destruct (Ascii.ascii_dec c c); [reflexivity | contradiction].
Qed.

(** ** The fetcher *)

Section Properties.

Variable call : list PathLike -> FS -> FS.
Variable json_loads : string -> option json.
Variable environ : gmap string string.

(** The four ways a call of the fetcher can go. *)
Lemma download_from_gcs_run D src dest fs :
  download_from_gcs call D src dest fs =
    match OS.makedirs (Pathlib.parent (as_path dest)) fs with
    | inl e =>
        MkRun (inl e) fs [Fetch src dest; Makedirs (Pathlib.parent (as_path dest))]
    | inr fs' =>
        if OS.is_file (as_path dest) fs' then
          MkRun (inr tt) fs' (skipped_fetch src dest)
        else if D then
          MkRun (inr tt) fs'
                [Fetch src dest; Makedirs (Pathlib.parent (as_path dest));
                 Log INFO (downloading_msg src dest)]
        else
          MkRun (inr tt) (call (gsutil_cp_n src dest) fs')
                [Fetch src dest; Makedirs (Pathlib.parent (as_path dest));
                 Log INFO (downloading_msg src dest);
                 Subprocess (gsutil_cp_n src dest)]
    end.
Proof.
  unfold download_from_gcs, os_makedirs, path_is_file, logging, subprocess, emit.
  rewrite !bind_run; simpl.
  destruct (OS.makedirs _ fs) as [e|fs']; simpl; [reflexivity|].
  destruct (OS.is_file _ fs'); simpl; [reflexivity|].
  destruct D; reflexivity.
Qed.

(** ** Leaves that are not downloaded *)

(** C2 (amended): a string leaf without the [gs://] prefix is logged as a
    warning and nothing else happens: the fetcher is not called, the file
    system is untouched, and the walk goes on. *)
Theorem non_gcs_string_is_only_warned D path s subdir fs :
  PyStr.startswith "gs://" s = false ->
  download call D path (JStr s) subdir fs
  = MkRun (inr tt) fs [Log WARNING (not_gcs_msg s)].
Proof. intros H. simpl. rewrite H. reflexivity. Qed.

(** C6: a null leaf logs one informational line, which names the
    subdirectory when there is one, and does nothing else: the walk goes
    on, the file system is as before, and there is no warning, no error,
    no directory and no copy. *)
Theorem null_leaf_is_skipped D path fs :
  (forall subdir,
      outcome (download call D path JNull subdir fs) = inr tt
      /\ state (download call D path JNull subdir fs) = fs
      /\ exists msg,
          events (download call D path JNull subdir fs) = [Log INFO msg]
          /\ String.prefix "Skipping optional output that wasn't defined" msg = true)
  /\ events (download call D path JNull None fs)
     = [Log INFO "Skipping optional output that wasn't defined"]
  /\ forall c k,
      events (download call D path JNull (Some (String c k)) fs)
      = [Log INFO ("Skipping optional output that wasn't defined: " +:+ String c k)].
Proof.
  split; [|split].
  - intros subdir. repeat split.
    exists (skipping_msg subdir). split; [reflexivity|].
    apply startswith_app.
  - reflexivity.
  - intros c k. reflexivity.
Qed.

(** C7: a number or a boolean is logged as an error that gives its type
    and its value; nothing is raised, the file system is untouched, and
    in a list or a mapping the items after it are still visited. *)
Theorem unrecognized_scalar_is_logged D path v subdir fs :
  unrecognized v = true ->
  download call D path v subdir fs
  = MkRun (inr tt) fs
      [Log ERROR ("Don't know how to download type " +:+ py_type v
                  +:+ ". Full object: " +:+ py_str v)]
  /\ (forall before after,
         download call D path (JList (before ++ v :: after)) subdir fs
         = (download call D path (JList before) subdir ;;
            logging ERROR (unknown_type_msg v) ;;
            download call D path (JList after) subdir) fs)
  /\ (forall before k after,
         download call D path (JDict (before ++ (k, v) :: after)) subdir fs
         = (download call D path (JDict before) subdir ;;
            logging ERROR (unknown_type_msg v) ;;
            download call D path (JDict after) subdir) fs).
Proof.
  intros Hv. split; [|split].
  - destruct v; try discriminate Hv; reflexivity.
  - intros before after. simpl. rewrite for_each_app.
    rewrite !bind_run. destruct (outcome (for_each _ before fs)); [reflexivity|].
    rewrite for_each_cons, !bind_run.
    destruct v; try discriminate Hv; reflexivity.
  - intros before k after. simpl. rewrite for_each_app.
    rewrite !bind_run. destruct (outcome (for_each _ before fs)); [reflexivity|].
    rewrite for_each_cons, !bind_run.
    destruct v; try discriminate Hv; reflexivity.
Qed.

(** ** Trees without downloads *)

Lemma quiet_run D v :
  quiet v = true ->
  forall path subdir fs,
  exists subdirs : list (option string),
    download call D path v subdir fs
    = MkRun (inr tt) fs (List.map (fun sd => Log INFO (skipping_msg sd)) subdirs)
    /\ length subdirs = null_leaves v.
Proof.
  induction v as [| | | | |l IH|kvs IH] using json_rect';
    try discriminate; intros Hq path subdir fs.
  - exists [subdir]. split; reflexivity.
  - simpl in Hq. simpl.
    set (f := fun loc => download call D _ loc None).
    revert fs. induction IH as [|x r Hx _ IHr]; intros fs.
    + exists []. split; reflexivity.
    + simpl in Hq. apply andb_prop in Hq as [Hqx Hqr].
      destruct (Hx Hqx (Pathlib.to_str (Pathlib.of_str path) +:+ "/"
                        +:+ PyStr.or_empty subdir) None fs) as (s1 & E1 & L1).
      destruct (IHr Hqr fs) as (s2 & E2 & L2).
      exists (s1 ++ s2). split.
      * change (download call D _ _ _ fs) with (f x fs) in E1.
        rewrite for_each_cons, bind_run, E1. simpl.
        rewrite E2. simpl. rewrite List.map_app. reflexivity.
      * rewrite length_app, L1, L2. reflexivity.
  - simpl in Hq. simpl.
    set (f := fun kv : string * json => download call D _ (snd kv) (Some (fst kv))).
    revert fs. induction IH as [|x r Hx _ IHr]; intros fs.
    + exists []. split; reflexivity.
    + simpl in Hq. apply andb_prop in Hq as [Hqx Hqr].
      destruct (Hx Hqx (path +:+ "/" +:+ PyStr.or_empty subdir)
                  (Some (fst x)) fs) as (s1 & E1 & L1).
      destruct (IHr Hqr fs) as (s2 & E2 & L2).
      exists (s1 ++ s2). split.
      * change (download call D _ _ _ fs) with (f x fs) in E1.
        rewrite for_each_cons, bind_run, E1. simpl.
        rewrite E2. simpl. rewrite List.map_app. reflexivity.
      * rewrite length_app, L1, L2. reflexivity.
Qed.

Lemma skip_lines_projections (subdirs : list (option string)) :
  let es := List.map (fun sd => Log INFO (skipping_msg sd)) subdirs in
  fetches es = [] /\ mkdirs es = [] /\ copies es = []
  /\ Forall (fun e => exists sd, e = Log INFO (skipping_msg sd)) es.
Proof.
  induction subdirs as [|sd r (Hf & Hm & Hc & Ha)]; simpl.
  - repeat split; constructor.
  - repeat split; try assumption. constructor; [eauto | assumption].
Qed.

(** C4: on a tree that has no string leaf and no number or boolean, the
    walk returns normally and leaves the file system as it found it; it
    creates no directory, calls neither the fetcher nor the copy, and its
    whole trace is one informational skip line per null leaf. *)
Theorem quiet_tree_only_logs_skips D path v subdir fs :
  quiet v = true ->
  let r := download call D path v subdir fs in
  outcome r = inr tt
  /\ state r = fs
  /\ mkdirs (events r) = [] /\ copies (events r) = [] /\ fetches (events r) = []
  /\ length (events r) = null_leaves v
  /\ Forall (fun e => exists msg,
                 e = Log INFO msg
                 /\ String.prefix "Skipping optional output that wasn't defined" msg
                    = true)
            (events r).
Proof.
  intros Hq r. subst r.
  destruct (quiet_run D v Hq path subdir fs) as (subdirs & E & L).
  rewrite E. simpl.
  destruct (skip_lines_projections subdirs) as (Hf & Hm & Hc & Ha).
  repeat split; try assumption.
  - rewrite length_map. exact L.
  - eapply Forall_impl; [exact Ha|].
    intros e [sd ->]. exists (skipping_msg sd). split; [reflexivity|].
    apply startswith_app.
Qed.

(** The part of C4 that does not depend on warnings: a tree without a
    [gs://] leaf is walked to the end, only log lines are produced, and the
    file system is left as it was. *)
Lemma tree_without_gcs_leaf_writes_nothing D v :
  no_gcs v = true ->
  forall path subdir fs,
    outcome (download call D path v subdir fs) = inr tt
    /\ state (download call D path v subdir fs) = fs
    /\ Forall (fun e => exists lvl msg, e = Log lvl msg)
              (events (download call D path v subdir fs)).
Proof.
  assert (Heach : forall (A : Type) (f : A -> M unit) (l : list A),
             Forall (fun x => forall fs,
                         outcome (f x fs) = inr tt /\ state (f x fs) = fs
                         /\ Forall (fun e => exists lvl msg, e = Log lvl msg)
                                   (events (f x fs))) l ->
             forall fs,
               outcome (for_each f l fs) = inr tt /\ state (for_each f l fs) = fs
               /\ Forall (fun e => exists lvl msg, e = Log lvl msg)
                         (events (for_each f l fs))).
  { intros A f l HF. induction HF as [|x r Hx _ IH]; intros fs.
    - repeat split. constructor.
    - rewrite for_each_cons, bind_run.
      destruct (Hx fs) as (Ho & Hs & He). rewrite Ho, Hs. simpl.
      destruct (IH fs) as (Ho' & Hs' & He').
      repeat split; [exact Ho' | exact Hs' | apply Forall_app; split; assumption]. }
  assert (Hlog : forall fs lvl msg,
             outcome (MkRun (inr tt) fs [Log lvl msg]) = inr tt
             /\ state (MkRun (inr tt) fs [Log lvl msg]) = fs
             /\ Forall (fun e => exists lvl msg, e = Log lvl msg)
                       (events (MkRun (inr tt) fs [Log lvl msg]))).
  { intros. repeat split. repeat constructor. eauto. }
  induction v as [|b|n|x|s|l IH|kvs IH] using json_rect';
    intros Hv path subdir fs; try apply Hlog.
  - simpl in *. rewrite Hv. apply Hlog.
  - simpl in *. apply Heach. rewrite forallb_forall in Hv.
    rewrite Forall_forall in IH. apply Forall_forall.
    intros x Hx fs'. apply IH; [exact Hx|]. apply Hv, list_elem_of_In, Hx.
  - simpl in *. apply Heach. rewrite forallb_forall in Hv.
    rewrite Forall_forall in IH. apply Forall_forall.
    intros x Hx fs'. apply IH; [exact Hx|]. apply Hv, list_elem_of_In, Hx.
Qed.

(** ** The file system under [os.makedirs] *)

Lemma mkdir_all_lookup (l : list Path) (fs : FS) (p : Path) :
  OS.mkdir_all l fs !! p = if decide (p ∈ l) then Some Dir else fs !! p.
Proof.
  induction l as [|q l IH]; simpl.
  - destruct (decide (p ∈ [])) as [H|H]; [by apply elem_of_nil in H | done].
  - rewrite lookup_insert. destruct (decide (q = p)) as [->|Hne].
    + rewrite decide_True; [done | left].
    + rewrite IH. destruct (decide (p ∈ l)) as [Hin|Hnin].
      * rewrite decide_True; [done | by right].
      * rewrite decide_False; [done|].
        intros [->|Hin]%elem_of_cons; contradiction.
Qed.

Lemma makedirs_no_file_on_chain p fs fs' :
  OS.makedirs p fs = inr fs' ->
  fs' = OS.mkdir_all (OS.chain p) fs
  /\ forall q, q ∈ OS.chain p -> OS.is_file q fs = false.
Proof.
  unfold OS.makedirs. destruct (List.find _ _) eqn:Hfind; [discriminate|].
  intros [= <-]. split; [reflexivity|].
  intros q Hq. apply list_elem_of_In in Hq.
  exact (List.find_none _ _ Hfind q Hq).
Qed.

(** [os.makedirs] neither creates nor removes a regular file. *)
Lemma makedirs_keeps_files p fs fs' q :
  OS.makedirs p fs = inr fs' -> OS.is_file q fs' = OS.is_file q fs.
Proof.
  intros H. apply makedirs_no_file_on_chain in H as [-> Hchain].
  unfold OS.is_file at 1. rewrite mkdir_all_lookup.
  case_decide as Hq; [|reflexivity].
  symmetry. apply Hchain, Hq.
Qed.

(** A regular file on the chain makes [os.makedirs] raise. *)
Lemma makedirs_raises p fs :
  (exists q, q ∈ OS.chain p /\ OS.is_file q fs = true) ->
  exists e, OS.makedirs p fs = inl e.
Proof.
  intros (q & Hq & Hf). unfold OS.makedirs.
  destruct (List.find _ _) eqn:Hfind; [eauto|].
  apply list_elem_of_In in Hq.
  rewrite (List.find_none _ _ Hfind q Hq) in Hf. discriminate.
Qed.

Lemma makedirs_inl_file p fs e :
  OS.makedirs p fs = inl e ->
  exists q, q ∈ OS.chain p /\ OS.is_file q fs = true.
Proof.
  unfold OS.makedirs. destruct (List.find _ _) as [q|] eqn:Hfind; [|discriminate].
  intros _. apply List.find_some in Hfind as [Hin Hf].
  exists q. split; [apply list_elem_of_In, Hin | exact Hf].
Qed.

(** ** A rule for properties that every step of the walk maintains *)

Lemma download_invariant D (Q : FS -> Run unit -> Prop) :
  (forall fs, Q fs (MkRun (inr tt) fs [])) ->
  (forall fs r1 r2,
      Q fs r1 -> outcome r1 = inr tt -> Q (state r1) r2 ->
      Q fs (MkRun (outcome r2) (state r2) (events r1 ++ events r2))) ->
  (forall fs lvl msg, Q fs (MkRun (inr tt) fs [Log lvl msg])) ->
  (forall fs src dest, Q fs (download_from_gcs call D src dest fs)) ->
  forall v path subdir fs, Q fs (download call D path v subdir fs).
Proof.
  intros Hret Hseq Hlog Hfetch.
  assert (Heach : forall (A : Type) (f : A -> M unit) (l : list A),
             Forall (fun x => forall fs, Q fs (f x fs)) l ->
             forall fs, Q fs (for_each f l fs)).
  { intros A f l HF. induction HF as [|x r Hx _ IH]; intros fs.
    - apply Hret.
    - rewrite for_each_cons, bind_run.
      destruct (outcome (f x fs)) as [e|[]] eqn:Hout.
      + rewrite <- Hout, run_eta. apply Hx.
      + apply Hseq; [apply Hx | exact Hout | apply IH]. }
  induction v as [|b|n|x|s|l IH|kvs IH] using json_rect';
    intros path subdir fs; try apply Hlog.
  - simpl. destruct (negb _); [apply Hlog | apply Hfetch].
  - simpl. apply Heach. eapply Forall_impl; [exact IH|].
    intros x Hx fs'. apply Hx.
  - simpl. apply Heach. eapply Forall_impl; [exact IH|].
    intros x Hx fs'. apply Hx.
Qed.

(** ** Dry runs *)

Lemma copies_app es1 es2 : copies (es1 ++ es2) = copies es1 ++ copies es2.
Proof. apply List.flat_map_app. Qed.

Lemma fetches_app es1 es2 : fetches (es1 ++ es2) = fetches es1 ++ fetches es2.
Proof. apply List.flat_map_app. Qed.

Lemma dry_fetch_keeps_files src dest fs :
  let r := download_from_gcs call true src dest fs in
  copies (events r) = [] /\ forall p, OS.is_file p (state r) = OS.is_file p fs.
Proof.
  cbv zeta. rewrite download_from_gcs_run.
  destruct (OS.makedirs _ fs) as [e|fs'] eqn:Hmk; simpl.
  - split; reflexivity.
  - destruct (OS.is_file (as_path dest) fs'); simpl;
      (split; [reflexivity | intros p; eapply makedirs_keeps_files, Hmk]).
Qed.

(** C8: in a dry run the walk of any tree never starts the copy command,
    and a path is a regular file afterwards exactly when it was one
    before.  A call of the fetcher in a dry run ends as the same call in
    normal mode does, with the same directories asked for and the same log
    lines (the line that announces the download unless the call raised or
    the file was there); normal mode differs by the copy alone, applied to
    the file system that the dry run leaves. *)
Theorem dry_run_creates_no_file path v subdir fs :
  (let r := download call true path v subdir fs in
   copies (events r) = []
   /\ forall p, OS.is_file p (state r) = OS.is_file p fs)
  /\ forall src dest,
      let dry := download_from_gcs call true src dest fs in
      let normal := download_from_gcs call false src dest fs in
      copies (events dry) = []
      /\ outcome dry = outcome normal
      /\ mkdirs (events dry) = mkdirs (events normal)
      /\ logs (events dry) = logs (events normal)
      /\ (raised dry
          \/ OS.is_file (as_path dest) (state dry) = true
          \/ In (INFO, downloading_msg src dest) (logs (events dry)))
      /\ (state normal = state dry
          \/ (copies (events normal) = [gsutil_cp_n src dest]
              /\ state normal = call (gsutil_cp_n src dest) (state dry))).
Proof.
  split.
  - revert v path subdir fs.
    apply (download_invariant true
             (fun fs r => copies (events r) = []
                          /\ forall p, OS.is_file p (state r) = OS.is_file p fs)).
    + intros fs. split; reflexivity.
    + intros fs r1 r2 [Hc1 Hf1] _ [Hc2 Hf2]. simpl. split.
      * rewrite copies_app, Hc1, Hc2. reflexivity.
      * intros p. rewrite Hf2. apply Hf1.
    + intros fs lvl msg. split; reflexivity.
    + intros fs src dest. apply dry_fetch_keeps_files.
  - intros src dest. cbv zeta. rewrite !download_from_gcs_run.
    destruct (OS.makedirs _ fs) as [e|fs'] eqn:Hmk; simpl.
    + repeat split; try reflexivity; [|left; reflexivity].
      left. exists e. reflexivity.
    + destruct (OS.is_file (as_path dest) fs') eqn:Hf; simpl.
      * repeat split; try reflexivity; [|left; reflexivity].
        right; left. exact Hf.
      * repeat split; try reflexivity; [right; right; left; reflexivity|].
        right. split; reflexivity.
Qed.

(** ** Where the walk sends its leaves *)

Lemma fetches_of_fetch D src dest fs :
  fetches (events (download_from_gcs call D src dest fs)) = [(src, dest)].
Proof.
  rewrite download_from_gcs_run.
  destruct (OS.makedirs _ fs) as [e|fs']; [reflexivity|].
  destruct (OS.is_file _ fs'); [reflexivity|].
  destruct D; reflexivity.
Qed.

Lemma for_each_fetches {A} (f : A -> M unit) (g : A -> list (string * PathLike)) l :
  Forall (fun x => forall fs, outcome (f x fs) = inr tt ->
                              fetches (events (f x fs)) = g x) l ->
  forall fs, outcome (for_each f l fs) = inr tt ->
             fetches (events (for_each f l fs)) = List.flat_map g l.
Proof.
  induction 1 as [|x r Hx _ IH]; intros fs; [reflexivity|].
  rewrite for_each_cons, bind_run.
  destruct (outcome (f x fs)) as [e|[]] eqn:Hout; simpl; [discriminate|].
  intros Hr. rewrite fetches_app, (Hx fs Hout), (IH _ Hr). reflexivity.
Qed.

(** A walk that returns normally has called the fetcher once per [gs://]
    leaf, in order, with the destinations [leaf_fetches] computes. *)
Lemma fetches_of_download D v :
  forall path subdir fs,
    outcome (download call D path v subdir fs) = inr tt ->
    fetches (events (download call D path v subdir fs)) = leaf_fetches path v subdir.
Proof.
  induction v as [|b|n|x|s|l IH|kvs IH] using json_rect';
    intros path subdir fs Hok; try reflexivity.
  - simpl. destruct (PyStr.startswith "gs://" s); simpl; [|reflexivity].
    apply fetches_of_fetch.
  - simpl in *. apply for_each_fetches; [|exact Hok].
    eapply Forall_impl; [exact IH|]. intros x Hx fs'. apply Hx.
  - simpl in *.
    apply (for_each_fetches
             (fun kv => download call D _ (snd kv) (Some (fst kv)))
             (fun kv => leaf_fetches _ (snd kv) (Some (fst kv)))); [|exact Hok].
    eapply Forall_impl; [exact IH|]. intros x Hx fs'. apply Hx.
Qed.

Lemma fetches_of_download_outputs D outs dir fs :
  let response := JDict [("outputs", JDict outs)] in
  outcome (download_outputs call D response dir fs) = inr tt ->
  fetches (events (download_outputs call D response dir fs))
  = List.flat_map
      (fun kv => leaf_fetches dir (snd kv)
                   (Some (PyStr.last_item (PyStr.split "."%char (fst kv)))))
      outs.
Proof.
  cbv zeta. unfold download_outputs. rewrite bind_run. simpl.
  intros Hok. apply for_each_fetches; [|exact Hok].
  apply Forall_forall. intros kv _ fs'. apply fetches_of_download.
Qed.

(** C1 (amended): a [gs://] leaf reached with base path [path] is handed to
    the fetcher with destination [path/<basename>], whatever [subdir] is:
    the key under which a string sits names no directory.  For the
    document of the example and [./out], a walk that returns has fetched
    to [out/bam/a.bam] and [out/bam/b.bam]. *)
Theorem string_leaf_destination D :
  (forall path s subdir fs,
      PyStr.startswith "gs://" s = true ->
      fetches (events (download call D path (JStr s) subdir fs))
      = [(s, PPath (Pathlib.of_str
                      (path +:+ "/" +:+ Pathlib.name (Pathlib.of_str s))))])
  /\ (forall fs,
         outcome (download_outputs call D bam_response "./out" fs) = inr tt ->
         List.map (fun c => as_path (snd c))
                  (fetches (events (download_outputs call D bam_response "./out" fs)))
         = [Pathlib.of_str "./out/bam/a.bam"; Pathlib.of_str "./out/bam/b.bam"]).
Proof.
  split.
  - intros path s subdir fs Hs. simpl. rewrite Hs. simpl.
    apply fetches_of_fetch.
  - intros fs Hok. unfold bam_response in *.
    rewrite (fetches_of_download_outputs D _ _ _ Hok). reflexivity.
Qed.

(** C5: a list is walked by visiting each element with the base path
    [path/subdir] (an absent subdir counting as empty) and no subdir, so
    the elements of a list of locators all land in that one directory,
    under their own basenames.  For the document of the example and
    [./out], a walk that returns has fetched to [./out/fastqs/r1.fq] and
    [./out/fastqs/r2.fq]. *)
Theorem list_elements_share_directory D :
  (forall path l subdir fs,
      download call D path (JList l) subdir fs
      = for_each
          (fun loc =>
             download call D (Pathlib.to_str (Pathlib.of_str path) +:+ "/"
                              +:+ PyStr.or_empty subdir) loc None)
          l fs)
  /\ (forall path uris subdir fs,
         Forall (fun u => PyStr.startswith "gs://" u = true) uris ->
         outcome (download call D path (JList (List.map JStr uris)) subdir fs) = inr tt ->
         fetches (events (download call D path (JList (List.map JStr uris)) subdir fs))
         = List.map
             (fun u =>
                (u, PPath (Pathlib.of_str
                             ((Pathlib.to_str (Pathlib.of_str path) +:+ "/"
                               +:+ PyStr.or_empty subdir)
                              +:+ "/" +:+ Pathlib.name (Pathlib.of_str u)))))
             uris)
  /\ (forall fs,
         outcome (download_outputs call D fastqs_response "./out" fs) = inr tt ->
         List.map (fun c => as_path (snd c))
                  (fetches (events (download_outputs call D fastqs_response "./out" fs)))
         = [Pathlib.of_str "./out/fastqs/r1.fq"; Pathlib.of_str "./out/fastqs/r2.fq"]).
Proof.
  split; [|split].
  - reflexivity.
  - intros path uris subdir fs Hgs Hok.
    rewrite (fetches_of_download D _ _ _ _ Hok). simpl. clear Hok.
    induction Hgs as [|u r Hu _ IH]; [reflexivity|].
    simpl. rewrite Hu. simpl. f_equal. exact IH.
  - intros fs Hok. unfold fastqs_response in *.
    rewrite (fetches_of_download_outputs D _ _ _ Hok). reflexivity.
Qed.

(** ** Loading JSON *)

Lemma slash_app_nonempty (a b : string) : a +:+ "/" +:+ b <> EmptyString.
Proof. destruct a; discriminate. Qed.

Lemma read_regular_file name fs text :
  name <> EmptyString ->
  fs !! Pathlib.of_str name = Some (File text) ->
  OS.read name fs = inr text.
Proof.
  intros Hne Hfile. unfold OS.read.
  destruct name; [contradiction|]. rewrite Hfile. reflexivity.
Qed.

Lemma makedirs_existing p fs :
  dir_exists p fs = true -> OS.makedirs p fs = inr fs.
Proof.
  unfold dir_exists. rewrite forallb_forall. intros Hdir.
  assert (Hd : forall q, q ∈ OS.chain p -> fs !! q = Some Dir).
  { intros q Hq. apply list_elem_of_In, Hdir in Hq.
    apply bool_decide_eq_true in Hq. exact Hq. }
  unfold OS.makedirs. destruct (List.find _ _) as [q|] eqn:Hfind.
  - apply List.find_some in Hfind as [Hin Hf].
    apply list_elem_of_In, Hd in Hin. unfold OS.is_file in Hf.
    rewrite Hin in Hf. discriminate.
  - f_equal. apply map_eq. intros q. rewrite mkdir_all_lookup.
    destruct (decide (q ∈ OS.chain p)) as [Hq|]; [|reflexivity].
    symmetry. apply Hd, Hq.
Qed.

(** C9: for a name that starts with [gs://], [read_json] calls the fetcher
    with the temp destination [<TMPDIR>/<basename>] ([TMPDIR] read from
    the environment, [/tmp] when unset) and then parses that file: an
    exception of the fetcher is passed on, and otherwise the result is the
    result of opening and parsing the temp file, which is also what
    [read_json] returns for any local name that reads the same bytes. *)
Theorem read_json_remote D filename fs :
  PyStr.startswith "gs://" filename = true ->
  let tmpfile :=
    Pathlib.to_str (Pathlib.of_str (environ_get environ "TMPDIR" "/tmp"))
    +:+ "/" +:+ Pathlib.name (Pathlib.of_str filename) in
  let fetched := download_from_gcs call D filename (PStr tmpfile) fs in
  let r := read_json call json_loads environ D filename fs in
  fetches (events r) = [(filename, PStr tmpfile)]
  /\ state r = state fetched
  /\ match outcome fetched with
     | inl e => outcome r = inl e
     | inr _ =>
         outcome r
         = outcome ((text <- open_read tmpfile ;; json_load json_loads text)
                      (state fetched))
         /\ forall local,
             PyStr.startswith "gs://" local = false ->
             OS.read local (state fetched) = OS.read tmpfile (state fetched) ->
             outcome (read_json call json_loads environ D local (state fetched))
             = outcome r
     end.
Proof.
  intros Hgs tmpfile fetched r.
  assert (Hr : r = (logging DEBUG ("Reading JSON " +:+ filename) ;;
                    download_from_gcs call D filename (PStr tmpfile) ;;
                    text <- open_read tmpfile ;; json_load json_loads text) fs).
  { subst r. unfold read_json. rewrite !bind_run. simpl. rewrite Hgs. reflexivity. }
  pose proof (fetches_of_fetch D filename (PStr tmpfile) fs) as Hf.
  fold fetched in Hf.
  rewrite Hr, bind_run. cbn [logging emit outcome state events].
  rewrite bind_run. fold fetched. clearbody fetched. clear Hr r.
  destruct (outcome fetched) as [e|[]] eqn:Hout; cbn [outcome state events];
    rewrite !fetches_app, Hf.
  - repeat split.
  - 
    assert (Hnofetch : forall w,
               fetches (events ((text <- open_read tmpfile ;;
                                 json_load json_loads text) w)) = []).
    { intros w. rewrite bind_run. unfold open_read. simpl.
      destruct (OS.read tmpfile w) as [e|text]; simpl; [reflexivity|].
      unfold json_load. destruct (json_loads text); reflexivity. }
    assert (Hstate : forall name w,
               state ((text <- open_read name ;; json_load json_loads text) w) = w).
    { intros name w. rewrite bind_run. unfold open_read. simpl.
      destruct (OS.read name w) as [e|text]; simpl; [reflexivity|].
      unfold json_load. destruct (json_loads text); reflexivity. }
    rewrite Hnofetch, Hstate. repeat split.
    intros local Hlocal Hsame. unfold read_json.
    rewrite bind_run. simpl. rewrite Hlocal.
    rewrite !bind_run. unfold open_read. simpl. rewrite Hsame. reflexivity.
Qed.

(** C10: when the temp destination of a remote name is already a regular
    file (its directory being there), [read_json] starts no copy: the
    fetcher logs that it skips the download, the file system stays as it
    is, and the result is the parse of the text that was in the temp
    file.  The copy command does not enter the result, so what the remote
    object holds now has no influence on it. *)
Theorem stale_temp_file_is_parsed D filename fs text :
  PyStr.startswith "gs://" filename = true ->
  let tmpfile :=
    Pathlib.to_str (Pathlib.of_str (environ_get environ "TMPDIR" "/tmp"))
    +:+ "/" +:+ Pathlib.name (Pathlib.of_str filename) in
  dir_exists (Pathlib.parent (Pathlib.of_str tmpfile)) fs = true ->
  fs !! Pathlib.of_str tmpfile = Some (File text) ->
  let r := read_json call json_loads environ D filename fs in
  copies (events r) = []
  /\ state r = fs
  /\ events r
     = [Log DEBUG ("Reading JSON " +:+ filename);
        Fetch filename (PStr tmpfile);
        Makedirs (Pathlib.parent (Pathlib.of_str tmpfile));
        Log INFO (exists_msg filename (PStr tmpfile))]
  /\ outcome r
     = match json_loads text with
       | Some v => inr v
       | None => inl JSONDecodeError
       end.
Proof.
  intros Hgs tmpfile Hdir Hfile r. subst r.
  unfold read_json. rewrite bind_run. simpl. rewrite Hgs.
  fold tmpfile. rewrite bind_run, download_from_gcs_run. simpl.
  rewrite (makedirs_existing _ _ Hdir).
  unfold OS.is_file. rewrite Hfile. simpl.
  rewrite bind_run. unfold open_read. simpl.
  rewrite (read_regular_file tmpfile fs text (slash_app_nonempty _ _) Hfile).
  simpl. unfold json_load. destruct (json_loads text); repeat split.
Qed.

(** ** Running the walk twice *)

Section Idempotence.

(** The copy command does its work: it leaves a regular file at the
    destination, and it removes no regular file. *)
Hypothesis cp_lands :
  forall src dest fs,
    OS.is_file (as_path dest) (call (gsutil_cp_n src dest) fs) = true.
Hypothesis cp_keeps :
  forall argv fs p,
    OS.is_file p fs = true -> OS.is_file p (call argv fs) = true.

Lemma fetch_keeps_files D src dest fs p :
  OS.is_file p fs = true ->
  OS.is_file p (state (download_from_gcs call D src dest fs)) = true.
Proof.
  intros Hp. rewrite download_from_gcs_run.
  destruct (OS.makedirs _ fs) as [e|fs'] eqn:Hmk; [exact Hp|].
  assert (Hp' : OS.is_file p fs' = true)
    by (rewrite (makedirs_keeps_files _ _ _ p Hmk); exact Hp).
  destruct (OS.is_file (as_path dest) fs'); [exact Hp'|].
  destruct D; [exact Hp'|]. simpl. apply cp_keeps, Hp'.
Qed.

(** Regular files only accumulate during a walk. *)
Lemma download_keeps_files D v path subdir fs :
  forall p, OS.is_file p fs = true ->
            OS.is_file p (state (download call D path v subdir fs)) = true.
Proof.
  revert v path subdir fs.
  apply (download_invariant D
           (fun fs r => forall p, OS.is_file p fs = true ->
                                  OS.is_file p (state r) = true)).
  - intros fs p Hp. exact Hp.
  - intros fs r1 r2 H1 _ H2 p Hp. simpl. apply H2, H1, Hp.
  - intros fs lvl msg p Hp. exact Hp.
  - intros fs src dest p. apply fetch_keeps_files.
Qed.

(** In one run no destination is copied to twice, and every copy was
    needed and left its file. *)
Lemma copies_of_download v path subdir fs :
  let r := download call false path v subdir fs in
  NoDup (List.map copy_dest (copies (events r)))
  /\ forall d, d ∈ List.map copy_dest (copies (events r)) ->
               OS.is_file d fs = false /\ OS.is_file d (state r) = true.
Proof.
  cbv zeta.
  cut ((forall p, OS.is_file p fs = true ->
                  OS.is_file p (state (download call false path v subdir fs)) = true)
       /\ NoDup (List.map copy_dest
                   (copies (events (download call false path v subdir fs))))
       /\ forall d,
           d ∈ List.map copy_dest
                 (copies (events (download call false path v subdir fs))) ->
           OS.is_file d fs = false
           /\ OS.is_file d (state (download call false path v subdir fs)) = true).
  { intros (_ & H1 & H2). split; assumption. }
  revert v path subdir fs.
  apply (download_invariant false
           (fun fs r =>
              (forall p, OS.is_file p fs = true -> OS.is_file p (state r) = true)
              /\ NoDup (List.map copy_dest (copies (events r)))
              /\ forall d, d ∈ List.map copy_dest (copies (events r)) ->
                           OS.is_file d fs = false
                           /\ OS.is_file d (state r) = true)).
  - intros fs. repeat split; [auto | constructor | |];
      simpl in *; exfalso; eapply elem_of_nil; eassumption.
  - intros fs r1 r2 (K1 & N1 & C1) _ (K2 & N2 & C2). simpl.
    rewrite copies_app, List.map_app. split; [|split].
    + intros p Hp. apply K2, K1, Hp.
    + apply NoDup_app. split; [exact N1|]. split; [|exact N2].
      intros d Hd1 Hd2. apply C1 in Hd1 as [_ Hd1]. apply C2 in Hd2 as [Hd2 _].
      congruence.
    + intros d [Hd|Hd]%elem_of_app.
      * apply C1 in Hd as [Ha Hb]. split; [exact Ha | apply K2, Hb].
      * apply C2 in Hd as [Ha Hb]. split; [|exact Hb].
        destruct (OS.is_file d fs) eqn:Hfs; [|reflexivity].
        apply K1 in Hfs. congruence.
  - intros fs lvl msg. repeat split; [auto | constructor | |];
      simpl in *; exfalso; eapply elem_of_nil; eassumption.
  - intros fs src dest. split; [intros p; apply fetch_keeps_files|].
    rewrite download_from_gcs_run.
    destruct (OS.makedirs _ fs) as [e|fs'] eqn:Hmk; simpl.
    { split; [constructor | intros d Hd; exfalso; eapply elem_of_nil, Hd]. }
    destruct (OS.is_file (as_path dest) fs') eqn:Hf; simpl.
    { split; [constructor | intros d Hd; exfalso; eapply elem_of_nil, Hd]. }
    split; [apply NoDup_singleton|].
    intros d Hd. apply list_elem_of_singleton in Hd. subst d.
    change (copy_dest (gsutil_cp_n src dest)) with (as_path dest).
    split; [|apply cp_lands].
    rewrite <- (makedirs_keeps_files _ _ _ (as_path dest) Hmk). exact Hf.
Qed.

Lemma for_each_keeps_files {A} (f : A -> M unit) l :
  (forall x fs p, OS.is_file p fs = true -> OS.is_file p (state (f x fs)) = true) ->
  forall fs p, OS.is_file p fs = true ->
               OS.is_file p (state (for_each f l fs)) = true.
Proof.
  intros Hf. induction l as [|x r IH]; intros fs p Hp; [exact Hp|].
  rewrite for_each_cons, bind_run.
  destruct (outcome (f x fs)) as [e|[]]; simpl.
  - apply Hf, Hp.
  - apply IH, Hf, Hp.
Qed.

Lemma for_each_replays {A} (f : A -> M unit) (T : A -> list Event) l :
  (forall x fs p, OS.is_file p fs = true -> OS.is_file p (state (f x fs)) = true) ->
  Forall (fun x => forall fs t,
              (forall p, OS.is_file p (state (f x fs)) = true ->
                         OS.is_file p t = true) ->
              replays (f x fs) (f x t) (T x)) l ->
  forall fs t,
    (forall p, OS.is_file p (state (for_each f l fs)) = true ->
               OS.is_file p t = true) ->
    replays (for_each f l fs) (for_each f l t) (List.flat_map T l).
Proof.
  intros Hkeep HF. induction HF as [|x r Hx _ IH]; intros fs t Hsub.
  - repeat split; simpl; auto.
  - rewrite !for_each_cons, !bind_run. simpl List.flat_map.
    rewrite for_each_cons, bind_run in Hsub.
    destruct (outcome (f x fs)) as [e1|[]] eqn:O1; simpl in Hsub.
    + destruct (Hx fs t Hsub) as (Hc & Hp & _ & Hr).
      destruct Hr as [e2 O2]; [exists e1; exact O1|].
      rewrite O2. repeat split; simpl.
      * exact Hc.
      * apply prefix_app_r, Hp.
      * discriminate.
      * intros _. exists e2. reflexivity.
    + assert (Hsub1 : forall p, OS.is_file p (state (f x fs)) = true ->
                                OS.is_file p t = true).
      { intros p Hp. apply Hsub, for_each_keeps_files; assumption. }
      destruct (Hx fs t Hsub1) as (Hc & Hp & He & _).
      destruct (outcome (f x t)) as [e2|[]] eqn:O2.
      * repeat split; simpl.
        -- exact Hc.
        -- apply prefix_app_r, Hp.
        -- discriminate.
        -- intros _. exists e2. reflexivity.
      * specialize (He eq_refl).
        assert (Hsub2 : forall p,
                   OS.is_file p (state (for_each f r (state (f x fs)))) = true ->
                   OS.is_file p (state (f x t)) = true).
        { intros p Hp'. apply Hkeep, Hsub, Hp'. }
        destruct (IH (state (f x fs)) (state (f x t)) Hsub2)
          as (Hc' & Hp' & He' & Hr').
        repeat split; simpl.
        -- rewrite copies_app, Hc, Hc'. reflexivity.
        -- rewrite He. apply prefix_app, Hp'.
        -- intros Hok. rewrite He, (He' Hok). reflexivity.
        -- intros [e He1]. simpl in He1. apply Hr'. exists e. exact He1.
Qed.

Lemma fetch_replays src dest fs t :
  (forall p, OS.is_file p (state (download_from_gcs call false src dest fs)) = true ->
             OS.is_file p t = true) ->
  replays (download_from_gcs call false src dest fs)
          (download_from_gcs call false src dest t)
          (skipped_fetch src dest).
Proof.
  rewrite !download_from_gcs_run.
  destruct (OS.makedirs _ fs) as [e|fs'] eqn:Hmk; simpl.
  - intros Hsub.
    destruct (makedirs_inl_file _ _ _ Hmk) as (q & Hq & Hf).
    destruct (makedirs_raises (Pathlib.parent (as_path dest)) t) as [e' ->].
    { exists q. split; [exact Hq | apply Hsub, Hf]. }
    repeat split; simpl.
    + eexists [_]. reflexivity.
    + discriminate.
    + intros _. exists e'. reflexivity.
  - intros Hsub.
    assert (Hdest : OS.is_file (as_path dest) t = true).
    { apply Hsub. destruct (OS.is_file (as_path dest) fs') eqn:Hf; simpl.
      - exact Hf.
      - apply cp_lands. }
    destruct (OS.makedirs _ t) as [e'|t'] eqn:Hmk'; simpl.
    + repeat split; simpl.
      * eexists [_]. reflexivity.
      * discriminate.
      * intros [e He]. exfalso.
        destruct (OS.is_file (as_path dest) fs'); discriminate He.
    + rewrite (makedirs_keeps_files _ _ _ (as_path dest) Hmk'), Hdest.
      repeat split; simpl.
      * reflexivity.
      * intros [e He]. exfalso.
        destruct (OS.is_file (as_path dest) fs'); discriminate He.
Qed.

Lemma download_replays v :
  forall path subdir fs t,
    (forall p, OS.is_file p (state (download call false path v subdir fs)) = true ->
               OS.is_file p t = true) ->
    replays (download call false path v subdir fs)
            (download call false path v subdir t)
            (skipped_trace path v subdir).
Proof.
  assert (Hlog : forall fs t lvl msg,
             replays (MkRun (inr tt) fs [Log lvl msg])
                     (MkRun (inr tt) t [Log lvl msg]) [Log lvl msg]).
  { intros. repeat split; simpl; auto. }
  induction v as [|b|n|x|s|l IH|kvs IH] using json_rect';
    intros path subdir fs t Hsub; try apply Hlog.
  - simpl in *. destruct (PyStr.startswith "gs://" s); simpl in *.
    + apply fetch_replays, Hsub.
    + apply Hlog.
  - simpl in *. apply for_each_replays.
    + intros x fs' p. apply download_keeps_files.
    + eapply Forall_impl; [exact IH|]. intros x Hx fs' t'. apply Hx.
    + exact Hsub.
  - simpl in *.
    apply (for_each_replays
             (fun kv => download call false _ (snd kv) (Some (fst kv)))
             (fun kv => skipped_trace _ (snd kv) (Some (fst kv)))).
    + intros x fs' p. apply download_keeps_files.
    + eapply Forall_impl; [exact IH|]. intros x Hx fs' t'. apply Hx.
    + exact Hsub.
Qed.

(** C3 (amended): in normal mode, with a copy command that leaves a
    regular file at its destination and removes none, walking the same
    tree a second time starts no copy: each call of the fetcher that
    gets past the creation of its directory finds its file and logs
    that the download is skipped, and a second run that returns has done
    exactly that for every [gs://] leaf.  Over both runs no destination
    path is copied to twice. *)
Theorem second_run_skips_every_download path v subdir fs :
  let first := download call false path v subdir fs in
  let second := download call false path v subdir (state first) in
  copies (events second) = []
  /\ events second `prefix_of` skipped_trace path v subdir
  /\ (outcome second = inr tt -> events second = skipped_trace path v subdir)
  /\ NoDup (List.map copy_dest (copies (events first ++ events second))).
Proof.
  cbv zeta.
  destruct (download_replays v path subdir fs
              (state (download call false path v subdir fs)))
    as (Hc & Hp & He & _); [auto|].
  repeat split; try assumption.
  rewrite copies_app, Hc, app_nil_r.
  apply copies_of_download.
Qed.

End Idempotence.

(** ** Splitting and joining *)

Lemma split_nonempty sep s : PyStr.split sep s <> [].
Proof.
  destruct s as [|c r]; simpl; [discriminate|].
  destruct (Ascii.eqb c sep); [discriminate|].
  destruct (PyStr.split sep r); discriminate.
Qed.

Lemma split_lacks sep s : lacks sep s = true -> PyStr.split sep s = [s].
Proof.
  induction s as [|c r IH]; simpl; [reflexivity|].
  intros [Hc Hr]%andb_prop. apply negb_true_iff in Hc. rewrite Hc, (IH Hr).
  reflexivity.
Qed.

Lemma split_app sep a b :
  PyStr.split sep (a +:+ String sep b) = PyStr.split sep a ++ PyStr.split sep b.
Proof.
  induction a as [|c a IH]; simpl.
  - rewrite Ascii.eqb_refl. reflexivity.
  - destruct (Ascii.eqb c sep); [rewrite IH; reflexivity|].
    rewrite IH. destruct (PyStr.split sep a) as [|h t] eqn:E; [|reflexivity].
    exfalso. exact (split_nonempty _ _ E).
Qed.

Lemma split_pieces_lack sep s :
  Forall (fun x => lacks sep x = true) (PyStr.split sep s).
Proof.
  induction s as [|c r IH]; simpl; [repeat constructor|].
  destruct (Ascii.eqb c sep) eqn:Hc; [constructor; [reflexivity | exact IH]|].
  destruct (PyStr.split sep r) as [|h t]; [repeat constructor; simpl; rewrite Hc; reflexivity|].
  inversion IH as [|? ? Hh Ht]; subst. constructor; [|exact Ht].
  simpl. rewrite Hc, Hh. reflexivity.
Qed.

Lemma last_in {A} (l : list A) d : l <> [] -> In (List.last l d) l.
Proof.
  induction l as [|x [|y r] IH]; intros Hne; [contradiction | left; reflexivity |].
  right. apply IH. discriminate.
Qed.

(** ** Parsing paths *)

Lemma of_str_canonical s : canonical (Pathlib.of_str s).
Proof.
  unfold canonical, Pathlib.of_str; simpl.
  apply Forall_forall. intros x Hx. apply list_elem_of_In, List.filter_In in Hx as [Hin Hk].
  unfold is_part. rewrite Hk. simpl.
  pose proof (split_pieces_lack Pathlib.slash s) as HF.
  rewrite Forall_forall in HF. apply HF, list_elem_of_In, Hin.
Qed.

Lemma parts_of_str_app a b :
  parts (Pathlib.of_str (a +:+ "/" +:+ b))
  = parts (Pathlib.of_str a) ++ parts (Pathlib.of_str b).
Proof.
  unfold Pathlib.of_str; simpl.
  change ("/" +:+ b) with (String Pathlib.slash b).
  rewrite split_app, List.filter_app. reflexivity.
Qed.

Lemma parts_of_part n : is_part n = true -> parts (Pathlib.of_str n) = [n].
Proof.
  unfold is_part. intros [Hk Hl]%andb_prop.
  unfold Pathlib.of_str; simpl. rewrite (split_lacks _ _ Hl). simpl.
  rewrite Hk. reflexivity.
Qed.

Lemma prefix_cons_inv c p d s :
  String.prefix (String c p) (String d s) = true -> c = d /\ String.prefix p s = true.
Proof.
  cbn [String.prefix]. destruct (Ascii.ascii_dec c d); [auto | discriminate].
Qed.

Lemma gcs_prefix_inv s :
  PyStr.startswith "gs://" s = true -> exists rest, s = "gs:" +:+ "/" +:+ "/" +:+ rest.
Proof.
  unfold PyStr.startswith. intros H.
  do 5 (destruct s as [|? s]; [discriminate H|];
        apply prefix_cons_inv in H as [<- H]).
  exists s. reflexivity.
Qed.

(** The basename of a [gs://] locator is a proper part: not empty, not [.],
    without a slash. *)
Lemma gcs_name_is_part s :
  PyStr.startswith "gs://" s = true ->
  is_part (Pathlib.name (Pathlib.of_str s)) = true.
Proof.
  intros [rest ->]%gcs_prefix_inv.
  pose proof (of_str_canonical ("gs:" +:+ "/" +:+ "/" +:+ rest)) as Hc.
  unfold canonical in Hc. rewrite Forall_forall in Hc.
  apply Hc, list_elem_of_In. unfold Pathlib.name. apply last_in.
  rewrite parts_of_str_app. discriminate.
Qed.

Lemma is_part_nonempty n : is_part n = true -> n <> EmptyString.
Proof. intros H ->. discriminate H. Qed.

Lemma parts_of_destination base n :
  is_part n = true ->
  parts (Pathlib.of_str (base +:+ "/" +:+ n)) = parts (Pathlib.of_str base) ++ [n].
Proof. intros Hn. rewrite parts_of_str_app, (parts_of_part n Hn). reflexivity. Qed.

Lemma join_split l :
  l <> [] -> Forall (fun x => is_part x = true) l ->
  PyStr.split Pathlib.slash (PyStr.join "/" l) = l.
Proof.
  induction l as [|x [|y r] IH]; intros Hne HF; [contradiction| |].
  - simpl. apply split_lacks. inversion HF as [|? ? Hx _]; subst.
    apply andb_prop in Hx as [_ Hx]. exact Hx.
  - inversion HF as [|? ? Hx Hr]; subst.
    change (PyStr.join "/" (x :: y :: r))
      with (x +:+ String Pathlib.slash (PyStr.join "/" (y :: r))).
    rewrite split_app, IH; [|discriminate|exact Hr].
    apply andb_prop in Hx as [_ Hx]. rewrite (split_lacks _ _ Hx). reflexivity.
Qed.

Lemma filter_kept_parts l :
  Forall (fun x => is_part x = true) l -> List.filter Pathlib.kept l = l.
Proof.
  induction 1 as [|x r Hx _ IH]; [reflexivity|].
  simpl. apply andb_prop in Hx as [Hk _]. rewrite Hk, IH. reflexivity.
Qed.

Lemma prefix_cons_same c p s :
  String.prefix (String c p) (String c s) = String.prefix p s.
Proof.
  cbn [String.prefix]. destruct (Ascii.ascii_dec c c); [reflexivity | contradiction].
Qed.

Lemma prefix_cons_other c d p s :
  Ascii.eqb d c = false -> String.prefix (String c p) (String d s) = false.
Proof.
  intros H. cbn [String.prefix]. destruct (Ascii.ascii_dec c d) as [->|]; [|reflexivity].
  rewrite Ascii.eqb_refl in H. discriminate.
Qed.

Lemma prefix_empty s : String.prefix EmptyString s = true.
Proof. destruct s; reflexivity. Qed.

Lemma part_no_leading_slash x :
  is_part x = true -> PyStr.startswith "/" x = false.
Proof.
  destruct x as [|c x]; [reflexivity|]. unfold is_part. simpl lacks.
  intros [_ [Hc _]%andb_prop]%andb_prop. apply negb_true_iff in Hc.
  apply prefix_cons_other, Hc.
Qed.

Lemma join_no_leading_slash l :
  Forall (fun x => is_part x = true) l ->
  PyStr.startswith "/" (PyStr.join "/" l) = false.
Proof.
  intros HF. destruct HF as [|x r Hx Hr]; [reflexivity|].
  destruct x as [|c x]; [discriminate Hx|].
  assert (Hc : Ascii.eqb c Pathlib.slash = false).
  { unfold is_part in Hx. simpl lacks in Hx.
    apply andb_prop in Hx as [_ [Hc _]%andb_prop].
    apply negb_true_iff in Hc. exact Hc. }
  unfold PyStr.startswith.
  destruct r; cbn [PyStr.join String.append]; apply prefix_cons_other, Hc.
Qed.

(** Printing a path and parsing the text gives the path back. *)
Lemma of_str_to_str p : canonical p -> Pathlib.of_str (Pathlib.to_str p) = p.
Proof.
  destruct p as [r l]. unfold canonical; simpl. intros HF.
  pose proof (join_no_leading_slash l HF) as Hj.
  assert (Hparts : forall pre,
             List.filter Pathlib.kept pre = [] ->
             List.filter Pathlib.kept
               (pre ++ PyStr.split Pathlib.slash (PyStr.join "/" l)) = l).
  { intros pre Hpre. rewrite List.filter_app, Hpre. simpl.
    destruct l as [|x l']; [reflexivity|].
    rewrite join_split; [|discriminate|exact HF]. apply filter_kept_parts, HF. }
  unfold Pathlib.to_str; cbn [root parts].
  destruct r.
  - destruct l as [|x l']; [reflexivity|]. cbn [Pathlib.root_str].
    change (EmptyString +:+ PyStr.join "/" (x :: l')) with (PyStr.join "/" (x :: l')).
    unfold Pathlib.of_str. f_equal.
    + unfold Pathlib.splitroot. rewrite Hj. reflexivity.
    + apply (Hparts []). reflexivity.
  - cbn [Pathlib.root_str].
    change ("/" +:+ PyStr.join "/" l) with (String Pathlib.slash (PyStr.join "/" l)).
    unfold Pathlib.of_str. f_equal.
    + unfold Pathlib.splitroot, PyStr.startswith in *.
      rewrite !prefix_cons_same, !prefix_empty, ?Hj. reflexivity.
    + apply (Hparts [EmptyString]). reflexivity.
  - cbn [Pathlib.root_str].
    change ("//" +:+ PyStr.join "/" l)
      with (String Pathlib.slash (String Pathlib.slash (PyStr.join "/" l))).
    unfold Pathlib.of_str. f_equal.
    + unfold Pathlib.splitroot, PyStr.startswith in *.
      rewrite !prefix_cons_same, !prefix_empty, ?Hj. reflexivity.
    + apply (Hparts [EmptyString; EmptyString]). reflexivity.
Qed.

(** ** What every walk does, whatever the tree, the mode and the copy command *)

(** The rule of [download_invariant], with the fetcher called as the walk
    calls it: for a [gs://] string, to a destination built from a base path
    and the basename of the string. *)
Lemma download_invariant_leaf D (Q : FS -> Run unit -> Prop) :
  (forall fs, Q fs (MkRun (inr tt) fs [])) ->
  (forall fs r1 r2,
      Q fs r1 -> outcome r1 = inr tt -> Q (state r1) r2 ->
      Q fs (MkRun (outcome r2) (state r2) (events r1 ++ events r2))) ->
  (forall fs lvl msg, Q fs (MkRun (inr tt) fs [Log lvl msg])) ->
  (forall fs base s,
      PyStr.startswith "gs://" s = true ->
      Q fs (download_from_gcs call D s
              (PPath (Pathlib.of_str
                        (base +:+ "/" +:+ Pathlib.name (Pathlib.of_str s)))) fs)) ->
  forall v path subdir fs, Q fs (download call D path v subdir fs).
Proof.
  intros Hret Hseq Hlog Hfetch.
  assert (Heach : forall (A : Type) (f : A -> M unit) (l : list A),
             Forall (fun x => forall fs, Q fs (f x fs)) l ->
             forall fs, Q fs (for_each f l fs)).
  { intros A f l HF. induction HF as [|x r Hx _ IH]; intros fs.
    - apply Hret.
    - rewrite for_each_cons, bind_run.
      destruct (outcome (f x fs)) as [e|[]] eqn:Hout.
      + rewrite <- Hout, run_eta. apply Hx.
      + apply Hseq; [apply Hx | exact Hout | apply IH]. }
  induction v as [|b|n|x|s|l IH|kvs IH] using json_rect';
    intros path subdir fs; try apply Hlog.
  - simpl. destruct (PyStr.startswith "gs://" s) eqn:Hs; simpl;
      [apply Hfetch, Hs | apply Hlog].
  - simpl. apply Heach. eapply Forall_impl; [exact IH|].
    intros x Hx fs'. apply Hx.
  - simpl. apply Heach. eapply Forall_impl; [exact IH|].
    intros x Hx fs'. apply Hx.
Qed.

Lemma mkdirs_app es1 es2 : mkdirs (es1 ++ es2) = mkdirs es1 ++ mkdirs es2.
Proof. apply List.flat_map_app. Qed.

(** X1: every call of the fetcher that a walk makes has a source that starts
    with [gs://] and a destination whose file name is the basename of the
    source, which is not empty; and the text of the destination, as it is
    logged and passed to the copy command, parses to the path that the
    fetcher tested. *)
Theorem every_fetch_keeps_the_basename D path v subdir fs :
  Forall (fun c =>
            PyStr.startswith "gs://" (fst c) = true
            /\ Pathlib.name (as_path (snd c)) = Pathlib.name (Pathlib.of_str (fst c))
            /\ Pathlib.name (as_path (snd c)) <> EmptyString
            /\ Pathlib.of_str (fspath (snd c)) = as_path (snd c))
         (fetches (events (download call D path v subdir fs))).
Proof.
  revert v path subdir fs.
  apply (download_invariant_leaf D
           (fun _ r =>
              Forall (fun c =>
                        PyStr.startswith "gs://" (fst c) = true
                        /\ Pathlib.name (as_path (snd c))
                           = Pathlib.name (Pathlib.of_str (fst c))
                        /\ Pathlib.name (as_path (snd c)) <> EmptyString
                        /\ Pathlib.of_str (fspath (snd c)) = as_path (snd c))
                     (fetches (events r)))).
  - intros fs. constructor.
  - intros fs r1 r2 H1 _ H2. simpl. rewrite fetches_app. apply Forall_app. split; assumption.
  - intros fs lvl msg. constructor.
  - intros fs base s Hs. rewrite fetches_of_fetch. constructor; [|constructor].
    pose proof (gcs_name_is_part s Hs) as Hn. simpl.
    assert (Hname : Pathlib.name (Pathlib.of_str
                                    (base +:+ "/" +:+ Pathlib.name (Pathlib.of_str s)))
                    = Pathlib.name (Pathlib.of_str s)).
    { unfold Pathlib.name at 1. rewrite (parts_of_destination _ _ Hn).
      apply List.last_last. }
    repeat split.
    + exact Hs.
    + exact Hname.
    + rewrite Hname. apply is_part_nonempty, Hn.
    + apply of_str_to_str, of_str_canonical.
Qed.

Lemma for_each_fetches_prefix {A} (f : A -> M unit) (g : A -> list (string * PathLike)) l :
  (forall x fs, outcome (f x fs) = inr tt -> fetches (events (f x fs)) = g x) ->
  Forall (fun x => forall fs, fetches (events (f x fs)) `prefix_of` g x) l ->
  forall fs, fetches (events (for_each f l fs)) `prefix_of` List.flat_map g l.
Proof.
  intros Hok HF. induction HF as [|x r Hx _ IH]; intros fs; [reflexivity|].
  rewrite for_each_cons, bind_run. simpl List.flat_map.
  destruct (outcome (f x fs)) as [e|[]] eqn:Hout; simpl.
  - apply prefix_app_r, Hx.
  - rewrite fetches_app, (Hok x fs Hout). apply prefix_app, IH.
Qed.

(** X2: the fetcher is called for [gs://] leaves of the tree only, in the order
    of the walk and each at most once: an exception cuts the list short, and
    a walk that returns has called it for every one. *)
Theorem fetches_follow_the_leaves D v :
  forall path subdir fs,
    fetches (events (download call D path v subdir fs))
      `prefix_of` leaf_fetches path v subdir
    /\ (outcome (download call D path v subdir fs) = inr tt ->
        fetches (events (download call D path v subdir fs))
        = leaf_fetches path v subdir).
Proof.
  intros path subdir fs. split; [|apply fetches_of_download].
  revert path subdir fs.
  induction v as [|b|n|x|s|l IH|kvs IH] using json_rect';
    intros path subdir fs; try reflexivity.
  - cbn [download leaf_fetches].
    destruct (PyStr.startswith "gs://" s); cbn [negb]; [|reflexivity].
    rewrite fetches_of_fetch. reflexivity.
  - simpl. apply for_each_fetches_prefix.
    + intros x fs'. apply fetches_of_download.
    + eapply Forall_impl; [exact IH|]. intros x Hx fs'. apply Hx.
  - simpl.
    apply (for_each_fetches_prefix
             (fun kv => download call D _ (snd kv) (Some (fst kv)))
             (fun kv => leaf_fetches _ (snd kv) (Some (fst kv)))).
    + intros x fs'. apply fetches_of_download.
    + eapply Forall_impl; [exact IH|]. intros x Hx fs'. apply Hx.
Qed.

(** X3: directories are asked for as the parents of fetch destinations and for
    nothing else, once per call of the fetcher; and the only commands a walk
    starts are [gsutil -q cp -n] from the source to the destination of one
    of its fetcher calls, in that order and at most one per call. *)
Theorem walk_only_copies_what_it_fetches D path v subdir fs :
  let r := download call D path v subdir fs in
  mkdirs (events r)
  = List.map (fun c => Pathlib.parent (as_path (snd c))) (fetches (events r))
  /\ copies (events r)
       `sublist_of` List.map (fun c => gsutil_cp_n (fst c) (snd c)) (fetches (events r)).
Proof.
  cbv zeta. revert v path subdir fs.
  apply (download_invariant D
           (fun _ r =>
              mkdirs (events r)
              = List.map (fun c => Pathlib.parent (as_path (snd c))) (fetches (events r))
              /\ copies (events r)
                   `sublist_of` List.map (fun c => gsutil_cp_n (fst c) (snd c))
                                  (fetches (events r)))).
  - intros fs. split; [reflexivity | constructor].
  - intros fs r1 r2 [M1 C1] _ [M2 C2]. simpl.
    rewrite mkdirs_app, copies_app, fetches_app, !List.map_app, M1, M2.
    split; [reflexivity | apply sublist_app; assumption].
  - intros fs lvl msg. split; [reflexivity | constructor].
  - intros fs src dest. rewrite download_from_gcs_run.
    destruct (OS.makedirs _ fs) as [e|fs']; simpl.
    + split; [reflexivity | apply sublist_nil_l].
    + destruct (OS.is_file (as_path dest) fs'); simpl.
      * split; [reflexivity | apply sublist_nil_l].
      * destruct D; simpl; (split; [reflexivity|]);
          [apply sublist_nil_l | reflexivity].
Qed.

Lemma makedirs_keeps_content q fs fs' p text :
  OS.makedirs q fs = inr fs' -> fs !! p = Some (File text) -> fs' !! p = Some (File text).
Proof.
  intros Hmk Hp. apply makedirs_no_file_on_chain in Hmk as [-> Hchain].
  rewrite mkdir_all_lookup. destruct (decide (p ∈ OS.chain q)) as [Hin|]; [|exact Hp].
  apply Hchain in Hin. unfold OS.is_file in Hin. rewrite Hp in Hin. discriminate.
Qed.

(** X4: a walk never alters a regular file that was there before it: the
    fetcher starts a copy only towards a path that is not a regular file,
    so it is enough that the copy command writes nowhere but at its
    destination. *)
Theorem existing_files_are_never_altered D path v subdir fs :
  (forall src dest fs' p,
      p <> as_path dest -> call (gsutil_cp_n src dest) fs' !! p = fs' !! p) ->
  forall p text,
    fs !! p = Some (File text) ->
    state (download call D path v subdir fs) !! p = Some (File text).
Proof.
  intros Hcp. revert v path subdir fs.
  apply (download_invariant D
           (fun fs r => forall p text, fs !! p = Some (File text) ->
                                       state r !! p = Some (File text))).
  - intros fs p text Hp. exact Hp.
  - intros fs r1 r2 H1 _ H2 p text Hp. simpl. eapply H2, H1, Hp.
  - intros fs lvl msg p text Hp. exact Hp.
  - intros fs src dest p text Hp. rewrite download_from_gcs_run.
    destruct (OS.makedirs _ fs) as [e|fs'] eqn:Hmk; [exact Hp|].
    pose proof (makedirs_keeps_content _ _ _ _ _ Hmk Hp) as Hp'.
    destruct (OS.is_file (as_path dest) fs') eqn:Hf; [exact Hp'|].
    destruct D; [exact Hp'|]. simpl. rewrite Hcp; [exact Hp'|].
    intros ->. unfold OS.is_file in Hf. rewrite Hp' in Hf. discriminate.
Qed.

(** X5: a dry run changes the file system by adding directories only: every
    path keeps the node it had, or had none and is now a directory. *)
Theorem dry_run_only_adds_directories path v subdir fs :
  forall p,
    state (download call true path v subdir fs) !! p = fs !! p
    \/ (fs !! p = None
        /\ state (download call true path v subdir fs) !! p = Some Dir).
Proof.
  revert v path subdir fs.
  apply (download_invariant true
           (fun fs r => forall p,
                state r !! p = fs !! p
                \/ (fs !! p = None /\ state r !! p = Some Dir))).
  - intros fs p. left. reflexivity.
  - intros fs r1 r2 H1 _ H2 p. simpl.
    destruct (H1 p) as [E1|[N1 D1]], (H2 p) as [E2|[N2 D2]].
    + left. congruence.
    + right. split; congruence.
    + right. split; congruence.
    + congruence.
  - intros fs lvl msg p. left. reflexivity.
  - intros fs src dest p. rewrite download_from_gcs_run.
    destruct (OS.makedirs _ fs) as [e|fs'] eqn:Hmk; [left; reflexivity|].
    assert (Hfs' : fs' !! p = fs !! p \/ (fs !! p = None /\ fs' !! p = Some Dir)).
    { apply makedirs_no_file_on_chain in Hmk as [-> Hchain].
      rewrite mkdir_all_lookup.
      destruct (decide (p ∈ OS.chain (Pathlib.parent (as_path dest)))) as [Hin|];
        [|left; reflexivity].
      apply Hchain in Hin. unfold OS.is_file in Hin.
      destruct (fs !! p) as [[|c]|]; [left; reflexivity | discriminate | right; auto]. }
    destruct (OS.is_file (as_path dest) fs'); exact Hfs'.
Qed.

(** X6: the fetcher raises whenever a regular file stands on the chain of
    directories it needs, and then it has logged nothing, started no copy
    and left the file system as it was. *)
Theorem fetcher_raises_on_a_file_in_the_way D src dest fs :
  (exists q, In q (OS.chain (Pathlib.parent (as_path dest)))
             /\ OS.is_file q fs = true) ->
  let r := download_from_gcs call D src dest fs in
  (outcome r = inl FileExistsError \/ outcome r = inl NotADirectoryError)
  /\ state r = fs /\ logs (events r) = [] /\ copies (events r) = [].
Proof.
  intros (q & Hq & Hf). cbv zeta. rewrite download_from_gcs_run.
  destruct (OS.makedirs _ fs) as [e|fs'] eqn:Hmk.
  - simpl. repeat split. unfold OS.makedirs in Hmk.
    destruct (List.find _ _); [|discriminate].
    injection Hmk as <-. destruct (decide _); auto.
  - exfalso. destruct (makedirs_raises (Pathlib.parent (as_path dest)) fs) as [e He].
    + exists q. split; [apply list_elem_of_In, Hq | exact Hf].
    + congruence.
Qed.


(** ** How walks compose *)

(** X8: walking a list or a mapping that is made of two parts is walking the
    first part and then the second from the file system the first left; an
    exception in the first part ends the walk there. *)
Theorem walk_of_two_parts D path subdir fs :
  (forall a b,
      download call D path (JList (a ++ b)) subdir fs
      = (download call D path (JList a) subdir ;;
         download call D path (JList b) subdir) fs)
  /\ (forall a b,
         download call D path (JDict (a ++ b)) subdir fs
         = (download call D path (JDict a) subdir ;;
            download call D path (JDict b) subdir) fs)
  /\ (forall a b,
         raised (download call D path (JList a) subdir fs) ->
         download call D path (JList (a ++ b)) subdir fs
         = download call D path (JList a) subdir fs)
  /\ (forall a b,
         raised (download call D path (JDict a) subdir fs) ->
         download call D path (JDict (a ++ b)) subdir fs
         = download call D path (JDict a) subdir fs).
Proof.
  assert (Hl : forall a b,
             download call D path (JList (a ++ b)) subdir fs
             = (download call D path (JList a) subdir ;;
                download call D path (JList b) subdir) fs).
  { intros a b. cbn [download]. apply for_each_app. }
  assert (Hd : forall a b,
             download call D path (JDict (a ++ b)) subdir fs
             = (download call D path (JDict a) subdir ;;
                download call D path (JDict b) subdir) fs).
  { intros a b. cbn [download]. apply for_each_app. }
  repeat split; try assumption.
  - intros a b [e He]. rewrite Hl, bind_run, He, <- He. apply run_eta.
  - intros a b [e He]. rewrite Hd, bind_run, He, <- He. apply run_eta.
Qed.

(** ** The loader on local names, and remote names in a dry run *)


Lemma inits_length {A} (l x : list A) : In x (OS.inits l) -> length x <= length l.
Proof.
  revert x. induction l as [|a r IH]; intros x; simpl; [contradiction|].
  intros [<-|Hin]; [simpl; lia|].
  apply List.in_map_iff in Hin as (y & <- & Hy). simpl.
  apply IH in Hy. lia.
Qed.

Lemma removelast_shorter {A} (l : list A) :
  l <> [] -> length (List.removelast l) < length l.
Proof.
  intros Hne. destruct l as [|a r]; [contradiction|].
  rewrite (List.app_removelast_last a Hne) at 2.
  rewrite length_app. simpl. lia.
Qed.

Lemma not_on_parent_chain p :
  parts p <> [] -> p ∉ OS.chain (Pathlib.parent p).
Proof.
  intros Hne Hin. apply list_elem_of_In in Hin. unfold OS.chain in Hin.
  apply List.in_map_iff in Hin as (x & Hx & Hin). simpl in Hin.
  apply inits_length in Hin. apply removelast_shorter in Hne.
  apply (f_equal parts) in Hx. simpl in Hx. rewrite <- Hx in Hne at 2. lia.
Qed.

(** X13: a dry run cannot load a remote outputs file that is not already in the
    temp directory: the flag is set before the file is read, so the fetcher
    only announces the download, [open] finds no file, and the script ends
    with [FileNotFoundError] before any output is walked. *)
Theorem dry_run_cannot_load_remote_outputs outputs_file outputs_dir fs :
  PyStr.startswith "gs://" outputs_file = true ->
  let tmpfile :=
    Pathlib.to_str (Pathlib.of_str (environ_get environ "TMPDIR" "/tmp"))
    +:+ "/" +:+ Pathlib.name (Pathlib.of_str outputs_file) in
  fs !! Pathlib.of_str tmpfile = None ->
  Forall (fun q => OS.is_file q fs = false)
         (OS.chain (Pathlib.parent (Pathlib.of_str tmpfile))) ->
  let r := main call json_loads environ true outputs_file outputs_dir fs in
  outcome r = inl FileNotFoundError
  /\ copies (events r) = []
  /\ events r
     = [Log DEBUG ("Reading JSON " +:+ outputs_file);
        Fetch outputs_file (PStr tmpfile);
        Makedirs (Pathlib.parent (Pathlib.of_str tmpfile));
        Log INFO (downloading_msg outputs_file (PStr tmpfile))].
Proof.
  intros Hgs tmpfile Habsent Hfree r. subst r.
  assert (Hparts : parts (Pathlib.of_str tmpfile) <> []).
  { unfold tmpfile. rewrite (parts_of_destination _ _ (gcs_name_is_part _ Hgs)).
    intros H. apply app_eq_nil in H as [_ H]. discriminate H. }
  unfold main, read_json. rewrite !bind_run. cbn [logging emit outcome state events].
  rewrite Hgs. fold tmpfile. rewrite bind_run, download_from_gcs_run.
  cbn [as_path].
  destruct (OS.makedirs _ fs) as [e|fs'] eqn:Hmk.
  { exfalso. apply makedirs_inl_file in Hmk as (q & Hq & Hf).
    rewrite Forall_forall in Hfree. rewrite (Hfree q Hq) in Hf. discriminate. }
  assert (Hlook : fs' !! Pathlib.of_str tmpfile = None).
  { apply makedirs_no_file_on_chain in Hmk as [-> _]. rewrite mkdir_all_lookup.
    rewrite decide_False; [exact Habsent | apply not_on_parent_chain, Hparts]. }
  unfold OS.is_file. rewrite Hlook. cbn [outcome state events].
  rewrite bind_run. unfold open_read. cbn [outcome state events].
  assert (Hread : OS.read tmpfile fs' = inl FileNotFoundError).
  { unfold OS.read. destruct tmpfile eqn:E.
    - exfalso. exact (slash_app_nonempty _ _ E).
    - rewrite Hlook. destruct (parts _); [contradiction | reflexivity]. }
  rewrite Hread. cbn [outcome state events]. repeat split.
Qed.

(** ** The entry point *)

Lemma bind_ret {A B} (a : A) (k : A -> M B) fs : bind (ret a) k fs = k a fs.
Proof. rewrite bind_run. simpl. apply run_eta. Qed.

Lemma for_each_one {A} (f : A -> M unit) x fs : for_each f [x] fs = f x fs.
Proof.
  rewrite for_each_cons, bind_run.
  destruct (outcome (f x fs)) as [e|[]] eqn:Ho.
  - rewrite <- Ho. apply run_eta.
  - simpl. rewrite app_nil_r, <- Ho. apply run_eta.
Qed.

Lemma last_item_after_dot wf name :
  lacks "."%char name = true ->
  PyStr.last_item (PyStr.split "."%char (wf +:+ "." +:+ name)) = name.
Proof.
  intros Hn. change ("." +:+ name) with (String "."%char name).
  rewrite split_app, (split_lacks _ _ Hn). unfold PyStr.last_item.
  apply List.last_last.
Qed.

(** X14: [download_outputs] walks an output under the text that follows the
    last dot of its key, and under the whole key when it has no dot: the
    workflow and task names in front do not reach the file system. *)
Theorem output_name_follows_the_last_dot D wf name v dir fs :
  lacks "."%char name = true ->
  download_outputs call D (JDict [("outputs", JDict [(wf +:+ "." +:+ name, v)])]) dir fs
  = download call D dir v (Some name) fs
  /\ download_outputs call D (JDict [("outputs", JDict [(name, v)])]) dir fs
     = download call D dir v (Some name) fs.
Proof.
  intros Hn. unfold download_outputs. split.
  - change (outputs_items _) with (ret (A := list (string * json)) [(wf +:+ "." +:+ name, v)]).
    rewrite bind_ret, for_each_one. cbn [fst snd].
    rewrite (last_item_after_dot wf name Hn). reflexivity.
  - change (outputs_items _) with (ret (A := list (string * json)) [(name, v)]).
    rewrite bind_ret, for_each_one. cbn [fst snd].
    unfold PyStr.last_item. rewrite (split_lacks _ _ Hn). reflexivity.
Qed.

(** X15: a response that has no mapping under ["outputs"] makes
    [download_outputs] raise before anything is logged, fetched or written:
    [TypeError] when the response is not a mapping, [KeyError] when the key
    is missing, [AttributeError] when its value is not a mapping. *)
Theorem malformed_response_raises_at_once D response dir fs :
  (forall kvs outs, response = JDict kvs -> dict_get "outputs" kvs <> Some (JDict outs)) ->
  let r := download_outputs call D response dir fs in
  state r = fs /\ events r = []
  /\ outcome r
     = inl match response with
           | JDict kvs =>
               match dict_get "outputs" kvs with
               | None => KeyError
               | Some _ => AttributeError
               end
           | _ => TypeError
           end.
Proof.
  intros Hbad. cbv zeta. unfold download_outputs. rewrite bind_run.
  destruct response as [| | | | | |kvs]; try solve [repeat split].
  unfold outputs_items.
  destruct (dict_get "outputs" kvs) as [[| | | | | |outs]|] eqn:Hget;
    try solve [repeat split].
  exfalso. exact (Hbad kvs outs eq_refl Hget).
Qed.

(** X16: with an empty [outputs_dir] the destinations of string leaves are
    absolute: a [gs://] string is fetched to [/<basename>], at the root of
    the file system, while the elements of a list under key [k] are fetched
    to the relative [k/<basename>]. *)
Theorem empty_outputs_dir_reaches_the_root D s subdir fs :
  PyStr.startswith "gs://" s = true ->
  fetches (events (download call D EmptyString (JStr s) subdir fs))
  = [(s, PPath (MkPath Abs [Pathlib.name (Pathlib.of_str s)]))]
  /\ forall k,
      fetches (events (download call D EmptyString (JList [JStr s]) (Some k) fs))
      = [(s, PPath (MkPath Rel (parts (Pathlib.of_str k)
                                ++ [Pathlib.name (Pathlib.of_str s)])))].
Proof.
  intros Hs. pose proof (gcs_name_is_part s Hs) as Hn. split.
  - cbn [download]. rewrite Hs. cbn [negb]. rewrite fetches_of_fetch.
    set (n := Pathlib.name (Pathlib.of_str s)) in *. clearbody n.
    do 3 f_equal.
    change (EmptyString +:+ "/" +:+ n) with (String Pathlib.slash n).
    unfold Pathlib.of_str. f_equal.
    + unfold Pathlib.splitroot, PyStr.startswith.
      rewrite !prefix_cons_same, prefix_empty.
      pose proof (part_no_leading_slash _ Hn) as Hl. unfold PyStr.startswith in Hl.
      rewrite Hl. reflexivity.
    + pose proof (parts_of_destination EmptyString _ Hn) as Hp.
      unfold Pathlib.of_str in Hp. simpl parts in Hp. exact Hp.
  - intros k. cbn [download]. rewrite for_each_one. cbn [download].
    rewrite Hs. cbn [negb]. rewrite fetches_of_fetch.
    set (n := Pathlib.name (Pathlib.of_str s)) in *. clearbody n.
    do 3 f_equal.
    change (Pathlib.to_str (Pathlib.of_str EmptyString)) with ".".
    cbn [PyStr.or_empty].
    assert (Hparts : parts (Pathlib.of_str (("." +:+ "/" +:+ k) +:+ "/" +:+ n))
                     = parts (Pathlib.of_str k) ++ [n]).
    { rewrite (parts_of_destination _ _ Hn), parts_of_str_app. reflexivity. }
    assert (Hroot : root (Pathlib.of_str (("." +:+ "/" +:+ k) +:+ "/" +:+ n)) = Rel).
    { change (("." +:+ "/" +:+ k) +:+ "/" +:+ n)
        with (String "."%char (String "/"%char (k +:+ "/" +:+ n))).
      unfold Pathlib.of_str, Pathlib.splitroot, PyStr.startswith. cbn [root].
      rewrite prefix_cons_other; reflexivity. }
    destruct (Pathlib.of_str _); simpl in *. subst. reflexivity.
Qed.

(** ** What a walk that returns has achieved *)

(** X9: in normal mode, with a copy command that leaves a regular file at its
    destination and removes none, a walk that returns has a regular file at
    the destination of every [gs://] leaf of the tree. *)
Theorem returned_walk_has_every_file path v subdir fs :
  (forall src dest fs',
      OS.is_file (as_path dest) (call (gsutil_cp_n src dest) fs') = true) ->
  (forall argv fs' p,
      OS.is_file p fs' = true -> OS.is_file p (call argv fs') = true) ->
  outcome (download call false path v subdir fs) = inr tt ->
  Forall (fun c => OS.is_file (as_path (snd c))
                     (state (download call false path v subdir fs)) = true)
         (leaf_fetches path v subdir).
Proof.
  intros Hlands Hkeeps Hok.
  rewrite <- (fetches_of_download false v path subdir fs Hok).
  revert Hok.
  cut ((forall p, OS.is_file p fs = true ->
                  OS.is_file p (state (download call false path v subdir fs)) = true)
       /\ (outcome (download call false path v subdir fs) = inr tt ->
           Forall (fun c => OS.is_file (as_path (snd c))
                              (state (download call false path v subdir fs)) = true)
                  (fetches (events (download call false path v subdir fs)))));
    [intros [_ H]; exact H|].
  revert v path subdir fs.
  apply (download_invariant false
           (fun fs r =>
              (forall p, OS.is_file p fs = true -> OS.is_file p (state r) = true)
              /\ (outcome r = inr tt ->
                  Forall (fun c => OS.is_file (as_path (snd c)) (state r) = true)
                         (fetches (events r))))).
  - intros fs. split; [auto | constructor].
  - intros fs r1 r2 [K1 F1] Ho1 [K2 F2]. simpl. split.
    + intros p Hp. apply K2, K1, Hp.
    + intros Ho2. rewrite fetches_app. apply Forall_app. split.
      * eapply Forall_impl; [apply F1, Ho1|]. intros c Hc. apply K2, Hc.
      * apply F2, Ho2.
  - intros fs lvl msg. split; [auto | constructor].
  - intros fs src dest. rewrite download_from_gcs_run.
    destruct (OS.makedirs _ fs) as [e|fs'] eqn:Hmk; simpl.
    + split; [auto | discriminate].
    + assert (Hk : forall p, OS.is_file p fs = true -> OS.is_file p fs' = true).
      { intros p Hp. rewrite (makedirs_keeps_files _ _ _ p Hmk). exact Hp. }
      destruct (OS.is_file (as_path dest) fs') eqn:Hf; simpl.
      * split; [exact Hk | intros _; repeat constructor; exact Hf].
      * split; [intros p Hp; apply Hkeeps, Hk, Hp|].
        intros _. repeat constructor. apply Hlands.
Qed.

(** X10: a dry run that returns has made the directory of every destination: its
    whole chain of directories is in the file system it leaves. *)
Theorem dry_run_prepares_the_directories path v subdir fs :
  outcome (download call true path v subdir fs) = inr tt ->
  Forall (fun c => dir_exists (Pathlib.parent (as_path (snd c)))
                     (state (download call true path v subdir fs)) = true)
         (leaf_fetches path v subdir).
Proof.
  intros Hok.
  rewrite <- (fetches_of_download true v path subdir fs Hok).
  revert Hok.
  assert (Hdir : forall (m m' : FS) q,
             (forall p, m !! p = Some Dir -> m' !! p = Some Dir) ->
             dir_exists q m = true -> dir_exists q m' = true).
  { intros m m' q Hsub. unfold dir_exists. rewrite !forallb_forall.
    intros H x Hx. apply bool_decide_eq_true. apply Hsub.
    specialize (H x Hx). apply bool_decide_eq_true in H. exact H. }
  cut ((forall p, fs !! p = Some Dir ->
                  state (download call true path v subdir fs) !! p = Some Dir)
       /\ (outcome (download call true path v subdir fs) = inr tt ->
           Forall (fun c => dir_exists (Pathlib.parent (as_path (snd c)))
                              (state (download call true path v subdir fs)) = true)
                  (fetches (events (download call true path v subdir fs)))));
    [intros [_ H]; exact H|].
  revert v path subdir fs.
  apply (download_invariant true
           (fun fs r =>
              (forall p, fs !! p = Some Dir -> state r !! p = Some Dir)
              /\ (outcome r = inr tt ->
                  Forall (fun c => dir_exists (Pathlib.parent (as_path (snd c)))
                                     (state r) = true)
                         (fetches (events r))))).
  - intros fs. split; [auto | constructor].
  - intros fs r1 r2 [K1 F1] Ho1 [K2 F2]. simpl. split.
    + intros p Hp. apply K2, K1, Hp.
    + intros Ho2. rewrite fetches_app. apply Forall_app. split.
      * eapply Forall_impl; [apply F1, Ho1|]. intros c Hc.
        eapply Hdir; [exact K2 | exact Hc].
      * apply F2, Ho2.
  - intros fs lvl msg. split; [auto | constructor].
  - intros fs src dest. rewrite download_from_gcs_run.
    destruct (OS.makedirs _ fs) as [e|fs'] eqn:Hmk; simpl.
    + split; [auto | discriminate].
    + apply makedirs_no_file_on_chain in Hmk as [-> Hchain].
      assert (Hk : forall p, fs !! p = Some Dir ->
                             OS.mkdir_all (OS.chain (Pathlib.parent (as_path dest))) fs !! p
                             = Some Dir).
      { intros p Hp. rewrite mkdir_all_lookup. destruct (decide _); [reflexivity | exact Hp]. }
      assert (Hmade : dir_exists (Pathlib.parent (as_path dest))
                        (OS.mkdir_all (OS.chain (Pathlib.parent (as_path dest))) fs)
                      = true).
      { unfold dir_exists. apply forallb_forall. intros q Hq.
        apply bool_decide_eq_true. rewrite mkdir_all_lookup.
        rewrite decide_True; [reflexivity | apply list_elem_of_In, Hq]. }
      destruct (OS.is_file (as_path dest) _); simpl;
        (split; [exact Hk | intros _; repeat constructor; exact Hmade]).
Qed.

(** X12: in normal mode, when the temp destination is not a regular file and
    nothing stands in the way of its directory, [read_json] on a remote name
    starts one copy and returns the parse of the text that the copy put at
    the temp destination. *)
Theorem fresh_remote_json_is_copied_then_parsed filename fs text :
  PyStr.startswith "gs://" filename = true ->
  let tmpfile :=
    Pathlib.to_str (Pathlib.of_str (environ_get environ "TMPDIR" "/tmp"))
    +:+ "/" +:+ Pathlib.name (Pathlib.of_str filename) in
  OS.is_file (Pathlib.of_str tmpfile) fs = false ->
  Forall (fun q => OS.is_file q fs = false)
         (OS.chain (Pathlib.parent (Pathlib.of_str tmpfile))) ->
  (forall fs',
      OS.is_file (Pathlib.of_str tmpfile) fs' = false ->
      call (gsutil_cp_n filename (PStr tmpfile)) fs' !! Pathlib.of_str tmpfile
      = Some (File text)) ->
  let r := read_json call json_loads environ false filename fs in
  copies (events r) = [gsutil_cp_n filename (PStr tmpfile)]
  /\ outcome r
     = match json_loads text with
       | Some v => inr v
       | None => inl JSONDecodeError
       end.
Proof.
  intros Hgs tmpfile Hnofile Hfree Hcopy r. subst r.
  unfold read_json. rewrite !bind_run. cbn [logging emit outcome state events].
  rewrite Hgs. fold tmpfile. rewrite bind_run, download_from_gcs_run.
  cbn [as_path].
  destruct (OS.makedirs _ fs) as [e|fs'] eqn:Hmk.
  { exfalso. apply makedirs_inl_file in Hmk as (q & Hq & Hf).
    rewrite Forall_forall in Hfree. rewrite (Hfree q Hq) in Hf. discriminate. }
  assert (Hnofile' : OS.is_file (Pathlib.of_str tmpfile) fs' = false)
    by (rewrite (makedirs_keeps_files _ _ _ (Pathlib.of_str tmpfile) Hmk); exact Hnofile).
  rewrite Hnofile'.
  cbn [outcome state events]. rewrite bind_run. unfold open_read.
  cbn [outcome state events].
  rewrite (read_regular_file tmpfile _ text (slash_app_nonempty _ _)
             (Hcopy fs' Hnofile')).
  cbn [outcome state events]. unfold json_load.
  destruct (json_loads text); split; reflexivity.
Qed.

End Properties.

(* ===================================================================== *)
(** * The properties at work on concrete runs *)
(* ===================================================================== *)

(** ** The stand-in for [gsutil] *)

Lemma every_object_lands src dest fs :
  OS.is_file (as_path dest) (gsutil_cp every_object (gsutil_cp_n src dest) fs) = true.
Proof.
  unfold gsutil_cp, gsutil_cp_n, every_object.
  destruct (OS.is_file (as_path dest) fs) eqn:E; [exact E|].
  unfold OS.is_file. rewrite lookup_insert_eq. reflexivity.
Qed.

Lemma gsutil_cp_keeps store argv fs p :
  OS.is_file p fs = true -> OS.is_file p (gsutil_cp store argv fs) = true.
Proof.
  intros Hp. unfold gsutil_cp. repeat case_match; subst; try exact Hp.
  unfold OS.is_file in *. rewrite lookup_insert.
  case_decide; [reflexivity | exact Hp].
Qed.

(** ** Destinations *)

(** C1, as stated, fails: for the document of the example the fetcher is
    called with [out/bam/a.bam] and [out/bam/b.bam]; the keys [sample1] and
    [sample2] appear in no destination and nothing is written under them. *)
Lemma sample_keys_name_no_directory :
  let r := download_outputs (gsutil_cp every_object) false bam_response "./out" ∅ in
  outcome r = inr tt
  /\ List.map (fun c => as_path (snd c)) (fetches (events r))
     = [Pathlib.of_str "./out/bam/a.bam"; Pathlib.of_str "./out/bam/b.bam"]
  /\ List.map (fun c => as_path (snd c)) (fetches (events r))
     <> [Pathlib.of_str "./out/bam/sample1/a.bam";
         Pathlib.of_str "./out/bam/sample2/b.bam"]
  /\ OS.is_file (Pathlib.of_str "./out/bam/sample1/a.bam") (state r) = false
  /\ OS.is_file (Pathlib.of_str "./out/bam/a.bam") (state r) = true.
Proof. vm_compute. repeat split. discriminate. Qed.

Lemma string_leaf_destination_witness :
  fetches (events (download (gsutil_cp every_object) false "./out/bam"
                     (JStr "gs://bucket/a.bam") (Some "sample1") ∅))
  = [("gs://bucket/a.bam", PPath (Pathlib.of_str "./out/bam/a.bam"))]
  /\ List.map (fun c => as_path (snd c))
       (fetches (events (download_outputs (gsutil_cp every_object) false
                           bam_response "./out" ∅)))
     = [Pathlib.of_str "./out/bam/a.bam"; Pathlib.of_str "./out/bam/b.bam"].
Proof.
  destruct (string_leaf_destination (gsutil_cp every_object) false) as [Hleaf Hdoc].
  split.
  - apply (Hleaf "./out/bam" "gs://bucket/a.bam" (Some "sample1") ∅). reflexivity.
  - apply (Hdoc ∅). vm_compute. reflexivity.
Defined.

Lemma list_elements_share_directory_witness :
  fetches (events (download (gsutil_cp every_object) false "./out"
                     (JList (List.map JStr ["gs://bucket/r1.fq"; "gs://bucket/r2.fq"]))
                     (Some "fastqs") ∅))
  = [("gs://bucket/r1.fq", PPath (Pathlib.of_str "out/fastqs/r1.fq"));
     ("gs://bucket/r2.fq", PPath (Pathlib.of_str "out/fastqs/r2.fq"))]
  /\ List.map (fun c => as_path (snd c))
       (fetches (events (download_outputs (gsutil_cp every_object) false
                           fastqs_response "./out" ∅)))
     = [Pathlib.of_str "./out/fastqs/r1.fq"; Pathlib.of_str "./out/fastqs/r2.fq"]
  /\ List.map
       (fun p => state (download_outputs (gsutil_cp every_object) false
                          fastqs_response "./out" ∅) !! Pathlib.of_str p)
       ["./out/fastqs"; "./out/fastqs/r1.fq"; "./out/fastqs/r2.fq"]
     = [Some Dir; Some (File "object gs://bucket/r1.fq");
        Some (File "object gs://bucket/r2.fq")].
Proof.
  destruct (list_elements_share_directory (gsutil_cp every_object) false)
    as (_ & Hlist & Hdoc).
  split; [|split].
  - apply (Hlist "./out" ["gs://bucket/r1.fq"; "gs://bucket/r2.fq"] (Some "fastqs") ∅).
    + repeat constructor.
    + vm_compute. reflexivity.
  - apply (Hdoc ∅). vm_compute. reflexivity.
  - vm_compute. reflexivity.
Defined.

(** ** Leaves that are not downloaded *)

(** C2, as stated, fails: a string without the prefix is warned about and
    the fetcher is not called for it. *)
Lemma local_string_is_not_fetched :
  let r := download (gsutil_cp every_object) false "./out" (JStr "notes.txt")
             (Some "log") ∅ in
  events r
  = [Log WARNING "Likely not a File output. had a non-GCS path value of notes.txt"]
  /\ fetches (events r) = []
  /\ ~ In (Fetch "notes.txt" (PPath (Pathlib.of_str "./out/log/notes.txt"))) (events r)
  /\ state r = ∅.
Proof.
  cbv zeta. change (download _ _ _ _ _ _) with
    (MkRun (inr tt) (∅ : FS)
       [Log WARNING "Likely not a File output. had a non-GCS path value of notes.txt"]).
  repeat split. simpl. intros [H|[]]. discriminate H.
Qed.

Lemma non_gcs_string_is_only_warned_witness :
  download (gsutil_cp every_object) false "./out" (JStr "notes.txt") (Some "log") ∅
  = MkRun (inr tt) ∅ [Log WARNING (not_gcs_msg "notes.txt")].
Proof.
  apply (non_gcs_string_is_only_warned (gsutil_cp every_object) false
           "./out" "notes.txt" (Some "log") ∅).
  reflexivity.
Defined.

Lemma unrecognized_scalar_is_logged_witness :
  download (gsutil_cp every_object) false "./out" (JInt 42) (Some "count") ∅
  = MkRun (inr tt) ∅
      [Log ERROR "Don't know how to download type <class 'int'>. Full object: 42"]
  /\ events (download (gsutil_cp every_object) false "./out"
               (JList [JInt 42; JStr "gs://bucket/r1.fq"]) (Some "fastqs") ∅)
     = [Log ERROR "Don't know how to download type <class 'int'>. Full object: 42";
        Fetch "gs://bucket/r1.fq" (PPath (Pathlib.of_str "out/fastqs/r1.fq"));
        Makedirs (Pathlib.of_str "out/fastqs");
        Log INFO "Downloading gs://bucket/r1.fq to out/fastqs/r1.fq";
        Subprocess (gsutil_cp_n "gs://bucket/r1.fq"
                      (PPath (Pathlib.of_str "out/fastqs/r1.fq")))].
Proof.
  destruct (unrecognized_scalar_is_logged (gsutil_cp every_object) false
              "./out" (JInt 42) (Some "fastqs") ∅ eq_refl) as (_ & Hlist & _).
  split.
  - apply (unrecognized_scalar_is_logged (gsutil_cp every_object) false
             "./out" (JInt 42) (Some "count") ∅ eq_refl).
  - etransitivity; [exact (f_equal events (Hlist [] [JStr "gs://bucket/r1.fq"]))|].
    vm_compute. reflexivity.
Defined.

Lemma quiet_tree_only_logs_skips_witness :
  let v := JDict [("log", JNull); ("extra", JList [JNull; JDict []])] in
  let r := download (gsutil_cp every_object) false "./out" v (Some "opt") ∅ in
  outcome r = inr tt /\ state r = ∅ /\ length (events r) = 2.
Proof.
  cbv zeta.
  destruct (quiet_tree_only_logs_skips (gsutil_cp every_object) false "./out"
              (JDict [("log", JNull); ("extra", JList [JNull; JDict []])])
              (Some "opt") ∅ eq_refl) as (Ho & Hs & _ & _ & _ & Hn & _).
  repeat split; assumption.
Defined.

(** ** Running twice *)

(** C3, as stated, fails.  In a dry run the second walk finds no file and
    announces the download again; and when the copy command fails (here:
    the network is down), the second walk starts the copy for the same
    destination a second time. *)
Lemma second_run_may_download_again :
  let tree := JDict [("sample1", JStr "gs://bucket/a.bam")] in
  (let first := download (gsutil_cp every_object) true "./out" tree (Some "bam") ∅ in
   let second := download (gsutil_cp every_object) true "./out" tree (Some "bam")
                   (state first) in
   OS.is_file (Pathlib.of_str "out/bam/a.bam") (state first) = false
   /\ logs (events second)
      = [(INFO, "Downloading gs://bucket/a.bam to out/bam/a.bam")])
  /\ (let first := download offline false "./out" tree (Some "bam") ∅ in
      let second := download offline false "./out" tree (Some "bam") (state first) in
      List.map copy_dest (copies (events first ++ events second))
      = [Pathlib.of_str "out/bam/a.bam"; Pathlib.of_str "out/bam/a.bam"]
      /\ ~ NoDup (List.map copy_dest (copies (events first ++ events second)))).
Proof.
  vm_compute. repeat split.
  intros H. apply NoDup_cons in H as [H _]. apply H. left.
Qed.

Lemma second_run_skips_every_download_witness :
  let tree := JDict [("sample1", JStr "gs://bucket/a.bam");
                     ("sample2", JStr "gs://other/a.bam");
                     ("reads", JList [JStr "gs://bucket/r1.fq"; JNull])] in
  let first := download (gsutil_cp every_object) false "./out" tree (Some "bam") ∅ in
  let second := download (gsutil_cp every_object) false "./out" tree (Some "bam")
                  (state first) in
  copies (events second) = []
  /\ events second = skipped_trace "./out" tree (Some "bam")
  /\ List.map copy_dest (copies (events first))
     = [Pathlib.of_str "out/bam/a.bam"; Pathlib.of_str "out/bam/reads/r1.fq"]
  /\ NoDup (List.map copy_dest (copies (events first ++ events second))).
Proof.
  cbv zeta.
  destruct (second_run_skips_every_download (gsutil_cp every_object)
              every_object_lands (gsutil_cp_keeps every_object)
              "./out"
              (JDict [("sample1", JStr "gs://bucket/a.bam");
                      ("sample2", JStr "gs://other/a.bam");
                      ("reads", JList [JStr "gs://bucket/r1.fq"; JNull])])
              (Some "bam") ∅) as (Hc & _ & He & Hn).
  split; [exact Hc|]. split; [apply He; vm_compute; reflexivity|].
  split; [vm_compute; reflexivity | exact Hn].
Defined.

(** ** Loading JSON *)

Lemma read_json_remote_witness :
  let r := read_json (gsutil_cp one_manifest) literal_loads no_env false
             "gs://bucket/manifest.json" cwd_with_copy in
  fetches (events r) = [("gs://bucket/manifest.json", PStr "/tmp/manifest.json")]
  /\ outcome r = inr (JBool true)
  /\ outcome (read_json (gsutil_cp one_manifest) literal_loads no_env false
                "copy.json" (state r))
     = outcome r.
Proof.
  cbv zeta.
  pose proof (read_json_remote (gsutil_cp one_manifest) literal_loads no_env false
                "gs://bucket/manifest.json" cwd_with_copy eq_refl) as H.
  cbv zeta in H. destruct H as (Hf & Hs & Hm).
  match type of Hm with
  | match ?o with _ => _ end =>
      assert (Ho : o = inr tt) by (vm_compute; reflexivity); rewrite Ho in Hm
  end.
  destruct Hm as [Hparse Hlocal].
  split; [exact Hf|]. split; [vm_compute; reflexivity|].
  rewrite Hs. apply Hlocal; vm_compute; reflexivity.
Defined.

Lemma stale_temp_file_is_parsed_witness :
  let r := read_json (gsutil_cp one_manifest) literal_loads no_env false
             "gs://bucket/manifest.json" tmp_with_stale_manifest in
  copies (events r) = []
  /\ state r = tmp_with_stale_manifest
  /\ outcome r = inr JNull
  /\ outcome (read_json (gsutil_cp one_manifest) literal_loads no_env false
                "gs://bucket/manifest.json" ∅)
     = inr (JBool true).
Proof.
  cbv zeta.
  destruct (stale_temp_file_is_parsed (gsutil_cp one_manifest) literal_loads no_env
              false "gs://bucket/manifest.json" tmp_with_stale_manifest "null"
              eq_refl eq_refl eq_refl) as (Hc & Hs & _ & Ho).
  split; [exact Hc|]. split; [exact Hs|]. split; [exact Ho|].
  vm_compute. reflexivity.
Defined.

(** ** The edges of the model *)

(** [TMPDIR] is read from the environment and normalised by [Path]. *)
Example tmpdir_is_read_from_environment :
  fetches (events (read_json offline literal_loads scratch_env false
                     "gs://bucket/manifest.json" ∅))
  = [("gs://bucket/manifest.json", PStr "/var/scratch/manifest.json")].
Proof. vm_compute. reflexivity. Qed.

(** With the network down the loader finds no temp file to open. *)
Example remote_json_needs_the_copy :
  outcome (read_json offline literal_loads no_env false
             "gs://bucket/manifest.json" ∅)
  = inl FileNotFoundError.
Proof. vm_compute. reflexivity. Qed.

(** A walk can raise: a file that an earlier leaf put in place stands where
    a later leaf needs a directory. *)
Example file_in_the_way_raises :
  let tree := JList [JStr "gs://bucket/x"; JDict [("x", JList [JStr "gs://bucket/y"])]] in
  let r := download (gsutil_cp every_object) false "out" tree (Some "k") ∅ in
  outcome r = inl FileExistsError
  /\ fetches (events r)
     = [("gs://bucket/x", PPath (Pathlib.of_str "out/k/x"));
        ("gs://bucket/y", PPath (Pathlib.of_str "out/k/x/y"))].
Proof. vm_compute. split; reflexivity. Qed.

(** ** Further properties at work *)

Lemma gsutil_cp_writes_only_destination store src dest fs p :
  p <> as_path dest -> gsutil_cp store (gsutil_cp_n src dest) fs !! p = fs !! p.
Proof.
  intros Hp. unfold gsutil_cp, gsutil_cp_n.
  destruct (store src); [|reflexivity].
  destruct (OS.is_file (as_path dest) fs); [reflexivity|].
  apply lookup_insert_ne. congruence.
Qed.

Lemma one_manifest_delivers fs :
  OS.is_file (Pathlib.of_str "/tmp/manifest.json") fs = false ->
  gsutil_cp one_manifest
    (gsutil_cp_n "gs://bucket/manifest.json" (PStr "/tmp/manifest.json")) fs
    !! Pathlib.of_str "/tmp/manifest.json"
  = Some (File "true").
Proof.
  intros Hf. unfold gsutil_cp, gsutil_cp_n.
  change (one_manifest "gs://bucket/manifest.json") with (Some "true").
  cbn [as_path]. rewrite Hf. apply lookup_insert_eq.
Qed.

Lemma existing_files_are_never_altered_witness :
  state (download (gsutil_cp every_object) false "./out"
           (JDict [("sample1", JStr "gs://bucket/a.bam");
                   ("sample2", JStr "gs://bucket/b.bam")])
           (Some "bam") out_with_old_bam)
    !! Pathlib.of_str "out/bam/a.bam"
  = Some (File "old").
Proof.
  apply (existing_files_are_never_altered (gsutil_cp every_object) false "./out"
           (JDict [("sample1", JStr "gs://bucket/a.bam");
                   ("sample2", JStr "gs://bucket/b.bam")])
           (Some "bam") out_with_old_bam).
  - intros src dest fs' p. apply gsutil_cp_writes_only_destination.
  - vm_compute. reflexivity.
Defined.

Lemma fetcher_raises_on_a_file_in_the_way_witness :
  let r := download_from_gcs (gsutil_cp every_object) false "gs://bucket/a.bam"
             (PPath (Pathlib.of_str "out/bam/a.bam")) out_is_a_file in
  (outcome r = inl FileExistsError \/ outcome r = inl NotADirectoryError)
  /\ state r = out_is_a_file /\ logs (events r) = [] /\ copies (events r) = [].
Proof.
  apply (fetcher_raises_on_a_file_in_the_way (gsutil_cp every_object) false
           "gs://bucket/a.bam" (PPath (Pathlib.of_str "out/bam/a.bam")) out_is_a_file).
  exists (Pathlib.of_str "out"). split; [left; reflexivity | reflexivity].
Defined.



Lemma dry_run_cannot_load_remote_outputs_witness :
  let r := main (gsutil_cp one_manifest) literal_loads no_env true
             "gs://bucket/manifest.json" "./out" ∅ in
  outcome r = inl FileNotFoundError /\ copies (events r) = [].
Proof.
  cbv zeta.
  destruct (dry_run_cannot_load_remote_outputs (gsutil_cp one_manifest) literal_loads
              no_env "gs://bucket/manifest.json" "./out" ∅ eq_refl)
    as (Ho & Hc & _).
  - vm_compute. reflexivity.
  - repeat constructor.
  - split; assumption.
Defined.

Lemma output_name_follows_the_last_dot_witness :
  download_outputs (gsutil_cp every_object) false
    (JDict [("outputs", JDict [("wf.task.bam", JList [JStr "gs://bucket/a.bam"])])])
    "./out" ∅
  = download (gsutil_cp every_object) false "./out"
      (JList [JStr "gs://bucket/a.bam"]) (Some "bam") ∅.
Proof.
  exact (proj1 (output_name_follows_the_last_dot (gsutil_cp every_object) false
                  "wf.task" "bam" (JList [JStr "gs://bucket/a.bam"]) "./out" ∅
                  eq_refl)).
Defined.

Lemma malformed_response_raises_at_once_witness :
  let r := download_outputs (gsutil_cp every_object) false
             (JDict [("calls", JNull)]) "./out" ∅ in
  state r = ∅ /\ events r = [] /\ outcome r = inl KeyError.
Proof.
  apply (malformed_response_raises_at_once (gsutil_cp every_object) false
           (JDict [("calls", JNull)]) "./out" ∅).
  intros kvs outs [= <-]. vm_compute. discriminate.
Defined.

Lemma empty_outputs_dir_reaches_the_root_witness :
  fetches (events (download offline false EmptyString (JStr "gs://bucket/a.bam")
                     (Some "bam") ∅))
  = [("gs://bucket/a.bam", PPath (MkPath Abs ["a.bam"]))]
  /\ fetches (events (download offline false EmptyString
                        (JList [JStr "gs://bucket/a.bam"]) (Some "bam") ∅))
     = [("gs://bucket/a.bam", PPath (MkPath Rel ["bam"; "a.bam"]))].
Proof.
  destruct (empty_outputs_dir_reaches_the_root offline false "gs://bucket/a.bam"
              (Some "bam") ∅ eq_refl) as [Hstr Hlist].
  split; [exact Hstr | exact (Hlist "bam")].
Defined.

Lemma returned_walk_has_every_file_witness :
  let tree := JDict [("sample1", JStr "gs://bucket/a.bam");
                     ("reads", JList [JStr "gs://bucket/r1.fq"; JNull])] in
  Forall (fun c => OS.is_file (as_path (snd c))
                     (state (download (gsutil_cp every_object) false "./out" tree
                               (Some "bam") ∅)) = true)
         (leaf_fetches "./out" tree (Some "bam")).
Proof.
  cbv zeta.
  apply (returned_walk_has_every_file (gsutil_cp every_object) "./out"
           (JDict [("sample1", JStr "gs://bucket/a.bam");
                   ("reads", JList [JStr "gs://bucket/r1.fq"; JNull])])
           (Some "bam") ∅ every_object_lands (gsutil_cp_keeps every_object)).
  vm_compute. reflexivity.
Defined.

Lemma dry_run_prepares_the_directories_witness :
  let tree := JDict [("sample1", JStr "gs://bucket/a.bam");
                     ("reads", JList [JStr "gs://bucket/r1.fq"; JNull])] in
  Forall (fun c => dir_exists (Pathlib.parent (as_path (snd c)))
                     (state (download offline true "./out" tree (Some "bam") ∅)) = true)
         (leaf_fetches "./out" tree (Some "bam")).
Proof.
  cbv zeta.
  apply (dry_run_prepares_the_directories offline "./out"
           (JDict [("sample1", JStr "gs://bucket/a.bam");
                   ("reads", JList [JStr "gs://bucket/r1.fq"; JNull])])
           (Some "bam") ∅).
  vm_compute. reflexivity.
Defined.

Lemma fresh_remote_json_is_copied_then_parsed_witness :
  let r := read_json (gsutil_cp one_manifest) literal_loads no_env false
             "gs://bucket/manifest.json" ∅ in
  copies (events r)
  = [gsutil_cp_n "gs://bucket/manifest.json" (PStr "/tmp/manifest.json")]
  /\ outcome r = inr (JBool true).
Proof.
  cbv zeta.
  apply (fresh_remote_json_is_copied_then_parsed (gsutil_cp one_manifest)
           literal_loads no_env "gs://bucket/manifest.json" ∅ "true" eq_refl).
  - reflexivity.
  - repeat constructor.
  - intros fs'. apply one_manifest_delivers.
Defined.
